(** * CS Float scanning bot: listing tracking and notification engine

    A shallow embedding of [main.py]: the fetch client ([fetch_listings]),
    the notification builder ([create_listing_embed]), the polling
    scheduler ([check_listings]) and the command handlers ([track_items],
    [untrack_items], [list_tracking], [test_fetch]), followed by the
    properties of the engine.

    Conventions of the embedding.
    - A Python [str] is a [string]; one [ascii] stands for one character,
      the code points 0..255 (slices such as [s[:8]] count characters).
      The emoji of the source's own literals are spelled out in the
      literals of this file and are only ever concatenated.
    - A Python [float] is an IEEE-754 binary64 value, taken from the
      Standard Library's [SpecFloat] at precision 53 and exponent bound
      1024; a Python [int] is a [Z].
    - A Python [dict] is an association list in insertion order; the set
      of seen listings is a [gset string].
    - A function that can raise returns a [result]; [try]/[except] is a
      match on it.  The outside world (HTTP endpoint, Discord transport,
      and the reading of timestamps by the interpreter's library) is a
      record of oracles handed to every handler.
    - A run of the process is a sequence of steps.  [track_items] writes
      the store before its first [await] and the seen set after its
      second one, so it is also given in two steps, between which other
      handlers can run.  The other commands change the bot before their
      first [await] only and are one step each.  A polling cycle is one
      step: it is followed to its end before another handler is looked
      at, which leaves out the commands that run while a cycle waits
      (the source iterates the live store at line 209). *)

From Stdlib Require Import ZArith String Ascii List DecimalString Lia.
From Stdlib Require Import Floats.SpecFloat.
From stdpp Require Import gmap strings list.

Open Scope string_scope.
Open Scope list_scope.
Open Scope stdpp_scope.
Open Scope Z_scope.

(** ** Exceptions *)

(** The exceptions the program meets.  Those whose text depends on
    where they are raised carry it. *)
Inductive exn : Type :=
| ZeroDivisionError
| OverflowError
| ValueError (msg : string)
| AttributeError (msg : string)
| TypeError (msg : string)
| TransportError (msg : string).

Inductive result (A : Type) : Type :=
| Ok (a : A)
| Raise (e : exn).
Arguments Ok {A} a.
Arguments Raise {A} e.

Definition bind {A B : Type} (r : result A) (k : A -> result B) : result B :=
  match r with
  | Ok a => k a
  | Raise e => Raise e
  end.

Notation "x <- r ;; k" := (bind r (fun x => k))
  (at level 100, r at next level, right associativity).

(** [str(e)] for the exceptions of the model. *)
Definition exn_text (e : exn) : string :=
  match e with
  | ZeroDivisionError => "float division by zero"
  | OverflowError => "integer division result too large for a float"
  | ValueError msg | AttributeError msg | TypeError msg | TransportError msg => msg
  end.

(** ** Python strings *)

Module PyStr.

Definition nl : string := String (ascii_of_nat 10) EmptyString.

(** [str(n)] for an [int]. *)
Definition of_Z (z : Z) : string := NilZero.string_of_int (Z.to_int z).

Definition of_nat (n : nat) : string := of_Z (Z.of_nat n).

(** [sep.join(l)] *)
Fixpoint join (sep : string) (l : list string) : string :=
  match l with
  | [] => EmptyString
  | [s] => s
  | s :: rest => s +:+ sep +:+ join sep rest
  end.

(** [s[:n]] *)
Fixpoint take (n : nat) (s : string) : string :=
  match n, s with
  | O, _ => EmptyString
  | _, EmptyString => EmptyString
  | S n', String c s' => String c (take n' s')
  end.

(** [s.startswith(p)] *)
Fixpoint startswith (p s : string) : bool :=
  match p, s with
  | EmptyString, _ => true
  | String _ _, EmptyString => false
  | String a p', String b s' => if Ascii.eqb a b then startswith p' s' else false
  end.

(** [c in s] for a character [c]. *)
Fixpoint contains (c : ascii) (s : string) : bool :=
  match s with
  | EmptyString => false
  | String a s' => if Ascii.eqb a c then true else contains c s'
  end.

(** [s.replace(c, r)] for a one-character pattern [c]. *)
Fixpoint replace_char (c : ascii) (r : string) (s : string) : string :=
  match s with
  | EmptyString => EmptyString
  | String a s' =>
      if Ascii.eqb a c then r +:+ replace_char c r s'
      else String a (replace_char c r s')
  end.

(** The characters [str.split()] separates on, among the code points
    0..255: tab, line feed, vertical tab, form feed, carriage return, the
    four separators 28..31, the space, the next-line control 133 and the
    no-break space 160. *)
Definition is_space (c : ascii) : bool :=
  let n := nat_of_ascii c in
  ((9 <=? n)%nat && (n <=? 13)%nat) || ((28 <=? n)%nat && (n <=? 32)%nat) ||
  (n =? 133)%nat || (n =? 160)%nat.

(** [s.split()]: the maximal runs of non-space characters.  [cur] is
    the run being read, in reverse. *)
Fixpoint split_ws_aux (cur : list ascii) (s : string) : list string :=
  let flush (k : list string) :=
    match cur with
    | [] => k
    | _ :: _ => string_of_list_ascii (rev cur) :: k
    end in
  match s with
  | EmptyString => flush []
  | String c s' =>
      if is_space c then flush (split_ws_aux [] s')
      else split_ws_aux (c :: cur) s'
  end.

Definition split_ws (s : string) : list string := split_ws_aux [] s.

(** [s.split(c, 1)] when [c in s]: the text before the first [c] and
    the text after it; [None] when [c] does not occur. *)
Fixpoint split_once (c : ascii) (s : string) : option (string * string) :=
  match s with
  | EmptyString => None
  | String a s' =>
      if Ascii.eqb a c then Some (EmptyString, s')
      else match split_once c s' with
           | Some (k, v) => Some (String a k, v)
           | None => None
           end
  end.

(** Truthiness of a string. *)
Definition truthy (s : string) : bool :=
  match s with EmptyString => false | _ => true end.

(** [s.lower()] on ASCII letters. *)
Definition lower_char (c : ascii) : ascii :=
  let n := nat_of_ascii c in
  if ((65 <=? n)%nat && (n <=? 90)%nat) then ascii_of_nat (n + 32) else c.

Fixpoint lower (s : string) : string :=
  match s with
  | EmptyString => EmptyString
  | String c s' => String (lower_char c) (lower s')
  end.

End PyStr.

(** ** Python floats: IEEE-754 binary64 *)

Module PyFloat.

Definition float : Type := spec_float.

Definition prec : Z := 53.
Definition emax : Z := 1024.

Definition zero : float := S754_zero false.

(** The binary64 value nearest to [n / d], ties to even.  The quotient is
    taken with at least 56 significant bits and one sticky bit below it,
    so that the final rounding to 53 bits sees on which side of every
    rounding boundary the exact quotient lies. *)
Definition of_ratio (neg : bool) (n d : positive) : float :=
  let k := Z.max 0 (Z.log2 (Zpos d) + 56 - Z.log2 (Zpos n)) in
  let a := Zpos n * 2 ^ k in
  let q := a / Zpos d in
  let sticky := if a mod Zpos d =? 0 then 0 else 1 in
  binary_normalize prec emax (cond_Zopp neg (2 * q + sticky)) (- k - 1) neg.

(** The nearest binary64 value to [z * 10 ^ e]. *)
Definition of_decimal (neg : bool) (z : Z) (e : Z) : float :=
  match z with
  | Zpos m =>
      match e with
      | Zneg pe => of_ratio neg m (10 ^ pe)%positive
      | Z0 => of_ratio neg m 1
      | Zpos pe => of_ratio neg (m * 10 ^ pe)%positive 1
      end
  | _ => S754_zero neg
  end.

(** [float(z)] for an [int] whose value converts without overflow; used
    at the literals of the source. *)
Definition of_Z (z : Z) : float :=
  match z with
  | Z0 => zero
  | Zpos p => of_ratio false p 1
  | Zneg p => of_ratio true p 1
  end.

Definition is_inf (x : float) : bool :=
  match x with S754_infinity _ => true | _ => false end.

Definition is_zero (x : float) : bool :=
  match x with S754_zero _ => true | _ => false end.

(** [a / b] for two [int]s: the correctly rounded quotient. *)
Definition int_truediv (a b : Z) : result float :=
  match b with
  | Z0 => Raise ZeroDivisionError
  | _ =>
      match a with
      | Z0 => Ok (S754_zero (b <? 0))
      | _ =>
          let x := of_ratio (negb (Bool.eqb (a <? 0) (b <? 0)))
                            (Z.to_pos (Z.abs a)) (Z.to_pos (Z.abs b)) in
          if is_inf x then Raise OverflowError else Ok x
      end
  end.

Definition sub (x y : float) : float := SFsub prec emax x y.
Definition mul (x y : float) : float := SFmul prec emax x y.

(** [x / y] for two [float]s. *)
Definition truediv (x y : float) : result float :=
  if is_zero y then Raise ZeroDivisionError else Ok (SFdiv prec emax x y).

Definition ltb (x y : float) : bool := SFltb x y.
Definition gt0 (x : float) : bool := SFltb zero x.
Definition lt0 (x : float) : bool := SFltb x zero.

(** Rounding of [n / d] to an integer, ties to even ([d > 0]). *)
Definition round_half_even (n d : Z) : Z :=
  let q := n / d in
  match (2 * (n mod d)) ?= d with
  | Lt => q
  | Gt => q + 1
  | Eq => if Z.even q then q else q + 1
  end.

(** Zero-padding on the left up to width [w]. *)
Definition zfill (w : nat) (s : string) : string :=
  string_of_list_ascii (repeat "0"%char (w - String.length s)) +:+ s.

Definition sign_text (neg : bool) : string := if neg then "-" else EmptyString.

(** [format(x, '.<p>f')] for [p > 0]: the exact value of [x] rounded to
    [p] decimals, ties to even; the sign is kept on a result that rounds
    to zero. *)
Definition format_fixed (p : nat) (x : float) : string :=
  let scale := 10 ^ Z.of_nat p in
  let render (neg : bool) (n : Z) :=
    sign_text neg +:+ PyStr.of_Z (n / scale) +:+ "." +:+
    zfill p (PyStr.of_Z (n mod scale)) in
  match x with
  | S754_zero neg => render neg 0
  | S754_infinity neg => sign_text neg +:+ "inf"
  | S754_nan => "nan"
  | S754_finite neg m e =>
      match e with
      | Zneg pe => render neg (round_half_even (Zpos m * scale) (2 ^ Zpos pe))
      | _ => render neg (Zpos m * 2 ^ e * scale)
      end
  end.

(** [cmp_pow10 m e t] compares [m * 2 ^ e] with [10 ^ t]. *)
Definition cmp_pow10 (m : positive) (e t : Z) : comparison :=
  (Zpos m * 2 ^ Z.max 0 e * 10 ^ Z.max 0 (- t))
  ?= (10 ^ Z.max 0 t * 2 ^ Z.max 0 (- e)).

(** The position of the decimal point of [m * 2 ^ e]: the least [t] with
    [m * 2 ^ e < 10 ^ t], searched upwards from an estimate that is at
    most one too small for a binary64 value. *)
Fixpoint decpt_from (fuel : nat) (m : positive) (e t : Z) : Z :=
  match fuel with
  | O => t
  | S fuel' =>
      match cmp_pow10 m e t with
      | Lt => t
      | _ => decpt_from fuel' m e (t + 1)
      end
  end.

Definition decpt (m : positive) (e : Z) : Z :=
  decpt_from 4 m e ((Z.log2 (Zpos m) + e) * 30103 / 100000 - 1).

(** [m * 2 ^ e] cut to [p] significant decimal digits: the digits as an
    integer of exactly [p] digits, the position of the point, and how
    the part cut off compares with half a unit of the last digit ([None]
    when nothing is cut off). *)
Definition floor_digits (p : Z) (m : positive) (e : Z) : Z * Z * option comparison :=
  let t := decpt m e in
  let n := Zpos m * 2 ^ Z.max 0 e * 10 ^ Z.max 0 (p - t) in
  let d := 2 ^ Z.max 0 (- e) * 10 ^ Z.max 0 (t - p) in
  (n / d, t, if n mod d =? 0 then None else Some ((2 * (n mod d)) ?= d)).

(** Whether the [p] digits [d] with the point after [t] of them read
    back as [m * 2 ^ e]. *)
Definition reads_back (p d t : Z) (m : positive) (e : Z) : bool :=
  SFeqb (of_decimal false d (t - p)) (S754_finite false m e).

(** [p] digits that have reached [10 ^ p] are a one followed by zeros,
    with the point one place further. *)
Definition carry (p d t : Z) : Z * Z :=
  if d =? 10 ^ p then (10 ^ (p - 1), t + 1) else (d, t).

(** The shortest digit string that reads back as the same float, and of
    the strings of that length the one nearest to it: at each precision
    from [p] on, the digits below and above [m * 2 ^ e] are tried; 17
    digits always do. *)
Fixpoint shortest_digits (fuel : nat) (p : Z) (m : positive) (e : Z) : Z * Z :=
  let '(lo, t, half) := floor_digits p m e in
  match half with
  | None => (lo, t)
  | Some c =>
      let hi := lo + 1 in
      let nearest :=
        match c with
        | Lt => lo
        | Gt => hi
        | Eq => if Z.even lo then lo else hi
        end in
      match fuel with
      | O => carry p nearest t
      | S fuel' =>
          let below := reads_back p lo t m e in
          let above := reads_back p hi t m e in
          if below && above then carry p nearest t
          else if below then (lo, t)
          else if above then carry p hi t
          else shortest_digits fuel' (p + 1) m e
      end
  end.

Definition zeros (n : Z) : string :=
  string_of_list_ascii (repeat "0"%char (Z.to_nat n)).

Definition drop (n : nat) (s : string) : string :=
  String.substring n (String.length s - n) s.

(** Layout of [repr]: digits [ds] with the point after [t] of them;
    exponent notation when [t <= -4] or [t > 16]. *)
Definition repr_layout (ds : string) (t : Z) : string :=
  let len := Z.of_nat (String.length ds) in
  if (t <=? -4) || (16 <? t) then
    let frac := drop 1 ds in
    let ex := t - 1 in
    PyStr.take 1 ds +:+
    (match frac with EmptyString => EmptyString | _ => "." +:+ frac end) +:+
    "e" +:+ (if ex <? 0 then "-" else "+") +:+ zfill 2 (PyStr.of_Z (Z.abs ex))
  else if t <=? 0 then "0." +:+ zeros (- t) +:+ ds
  else if t <? len then
    PyStr.take (Z.to_nat t) ds +:+ "." +:+ drop (Z.to_nat t) ds
  else ds +:+ zeros (t - len) +:+ ".0".

(** [repr(x)], which is also [str(x)] and [format(x, '')]. *)
Definition repr (x : float) : string :=
  match x with
  | S754_zero neg => sign_text neg +:+ "0.0"
  | S754_infinity neg => sign_text neg +:+ "inf"
  | S754_nan => "nan"
  | S754_finite neg m e =>
      let '(d, t) := shortest_digits 16 1 m e in
      sign_text neg +:+ repr_layout (PyStr.of_Z d) t
  end.

(** *** Reading numbers: [int(s)] and [float(s)] *)

Definition digit_val (c : ascii) : option Z :=
  let n := nat_of_ascii c in
  if ((48 <=? n)%nat && (n <=? 57)%nat) then Some (Z.of_nat (n - 48)) else None.

(** The rest of a [digitpart ::= digit (["_"] digit)*] after its first
    digit: the value read so far, the number of digits, and what is
    left of the text. *)
Fixpoint digits_tail (s : string) (acc cnt : Z) : Z * Z * string :=
  match s with
  | EmptyString => (acc, cnt, s)
  | String c s' =>
      match digit_val c with
      | Some d => digits_tail s' (10 * acc + d) (cnt + 1)
      | None =>
          if Ascii.eqb c "_" then
            match s' with
            | String c2 s'' =>
                match digit_val c2 with
                | Some d => digits_tail s'' (10 * acc + d) (cnt + 1)
                | None => (acc, cnt, s)
                end
            | EmptyString => (acc, cnt, s)
            end
          else (acc, cnt, s)
      end
  end.

Definition digitpart (s : string) : option (Z * Z * string) :=
  match s with
  | EmptyString => None
  | String c s' =>
      match digit_val c with
      | Some d => Some (digits_tail s' d 1)
      | None => None
      end
  end.

(** An optional sign: [true] for a minus. *)
Definition take_sign (s : string) : bool * string :=
  match s with
  | String "-" s' => (true, s')
  | String "+" s' => (false, s')
  | _ => (false, s)
  end.

(** [int(s)] in base 10, for a text without surrounding blanks; [None]
    where the interpreter raises [ValueError].  (Its limit of 4300 digits
    is beyond what a chat message can carry.) *)
Definition parse_int (s : string) : option Z :=
  let '(neg, body) := take_sign s in
  match digitpart body with
  | Some (v, _, EmptyString) => Some (if neg then - v else v)
  | _ => None
  end.

(** The exponent part of a float literal, absent when the text ends. *)
Definition parse_exponent (s : string) : option Z :=
  match s with
  | EmptyString => Some 0
  | String c s' =>
      if Ascii.eqb c "e" || Ascii.eqb c "E" then
        let '(neg, body) := take_sign s' in
        match digitpart body with
        | Some (v, _, EmptyString) => Some (if neg then - v else v)
        | _ => None
        end
      else None
  end.

(** [float(s)], for a text without surrounding blanks:
    [[sign] (number [exponent] | "inf" | "infinity" | "nan")] with
    [number ::= [digitpart] "." digitpart | digitpart ["."]]; [None]
    where the interpreter raises [ValueError]. *)
Definition parse_float (s : string) : option float :=
  let '(neg, body) := take_sign s in
  let low := PyStr.lower body in
  if String.eqb low "inf" || String.eqb low "infinity" then Some (S754_infinity neg)
  else if String.eqb low "nan" then Some S754_nan
  else
    let '(ip, rest) :=
      match digitpart body with
      | Some (v, _, rest) => (Some v, rest)
      | None => (None, body)
      end in
    let '(fp, rest') :=
      match rest with
      | String "." after =>
          match digitpart after with
          | Some (v, n, rest') => (Some (v, n), rest')
          | None => (match ip with Some _ => Some (0, 0) | None => None end, after)
          end
      | _ => (match ip with Some _ => Some (0, 0) | None => None end, rest)
      end in
    match fp, parse_exponent rest' with
    | Some (fv, fn), Some ex =>
        Some (of_decimal neg (match ip with Some v => v | None => 0 end * 10 ^ fn + fv)
                         (ex - fn))
    | _, _ => None
    end.

End PyFloat.

(** ** Dictionaries in insertion order *)

Module Dict.

Section Ops.
Context {V : Type}.

(** [d.get(k)] *)
Fixpoint get (k : string) (d : list (string * V)) : option V :=
  match d with
  | [] => None
  | (k', v) :: d' => if String.eqb k' k then Some v else get k d'
  end.

(** [d[k] = v]: an existing key keeps its place, a new key goes last. *)
Fixpoint set (k : string) (v : V) (d : list (string * V)) : list (string * V) :=
  match d with
  | [] => [(k, v)]
  | (k', v') :: d' =>
      if String.eqb k' k then (k', v) :: d' else (k', v') :: set k v d'
  end.

(** [del d[k]] *)
Fixpoint del (k : string) (d : list (string * V)) : list (string * V) :=
  match d with
  | [] => []
  | (k', v') :: d' => if String.eqb k' k then d' else (k', v') :: del k d'
  end.

(** [k in d] *)
Definition mem (k : string) (d : list (string * V)) : bool :=
  match get k d with Some _ => true | None => false end.

End Ops.

End Dict.

(** ** Data model *)

(** An optional key of a JSON object: missing, [null], or carrying a
    value. *)
Inductive jfield (A : Type) : Type :=
| Absent
| Null
| Present (a : A).
Arguments Absent {A}.
Arguments Null {A}.
Arguments Present {A} a.

Record Sticker : Type := { sticker_name : string }.

Record Item : Type := {
  market_hash_name : string;
  float_value : PyFloat.float;
  paint_seed : jfield Z;
  wear_name : jfield string;
  is_stattrak : option bool;
  is_souvenir : option bool;
  rarity : jfield Z;
  stickers : option (list Sticker);
  icon_url : option string
}.

Record Seller : Type := {
  username : jfield string;
  obfuscated_id : option string
}.

Record Reference : Type := {
  predicted_price : jfield Z;
  base_price : jfield Z
}.

(** A listing as the endpoint returns it.  The keys the source reads
    with [listing[...]] are fields, of the type the endpoint documents.
    Those it reads with [.get] are optional: where the source shows the
    value or computes with it, a [null] is told apart from a missing key
    ([jfield]); where it only tests the value for truth ([is_stattrak],
    [is_souvenir], [stickers], [icon_url], [obfuscated_id], [reference],
    [description]), [None] stands for a missing key and for [null],
    which are both falsy. *)
Record Listing : Type := {
  listing_id : string;
  item : Item;
  seller : Seller;
  created_at : string;
  price : Z;
  reference : option Reference;
  watchers : jfield Z;
  description : option string
}.

(** [class SortOption(Enum)] *)
Inductive SortOption : Type :=
| BEST_DEAL
| HIGHEST_DISCOUNT
| LOWEST_PRICE
| HIGHEST_PRICE
| MOST_RECENT
| LOWEST_FLOAT
| HIGHEST_FLOAT
| CREATED_AT.

Definition SortOption_value (o : SortOption) : string :=
  match o with
  | BEST_DEAL => "best_deal"
  | HIGHEST_DISCOUNT => "highest_discount"
  | LOWEST_PRICE => "lowest_price"
  | HIGHEST_PRICE => "highest_price"
  | MOST_RECENT => "most_recent"
  | LOWEST_FLOAT => "lowest_float"
  | HIGHEST_FLOAT => "highest_float"
  | CREATED_AT => "created_at"
  end.

(** The members in definition order: [list(SortOption)]. *)
Definition SortOption_members : list SortOption :=
  [BEST_DEAL; HIGHEST_DISCOUNT; LOWEST_PRICE; HIGHEST_PRICE;
   MOST_RECENT; LOWEST_FLOAT; HIGHEST_FLOAT; CREATED_AT].

(** [SortOption(value)]: the member with that value, [None] where the
    source raises [ValueError]. *)
Definition SortOption_lookup (value : string) : option SortOption :=
  List.find (fun o => String.eqb (SortOption_value o) value) SortOption_members.

(** [[opt.value for opt in SortOption]] *)
Definition valid_options : list string := map SortOption_value SortOption_members.

(** A value of a query parameter. *)
Inductive pyval : Type :=
| PInt (z : Z)
| PFloat (f : PyFloat.float)
| PStr (s : string).

(** [str(v)] *)
Definition pyval_str (v : pyval) : string :=
  match v with
  | PInt z => PyStr.of_Z z
  | PFloat f => PyFloat.repr f
  | PStr s => s
  end.

Record Config : Type := {
  params : list (string * pyval);
  channel : Z
}.

Inductive Color : Type := blue | green | purple.

Record EmbedField : Type := {
  field_name : string;
  field_value : string;
  field_inline : bool
}.

(** [discord.Embed]: what the builder sets of it.  The timestamp is the
    text that [datetime.fromisoformat] was given and has read. *)
Record Embed : Type := {
  embed_title : string;
  embed_description : option string;
  embed_url : option string;
  embed_color : Color;
  embed_timestamp : option string;
  embed_fields : list EmbedField;
  embed_thumbnail : option string;
  embed_footer : option string
}.

(** [embed.add_field(name=..., value=..., inline=...)] as a list cell. *)
Definition add_field (name value : string) (inline : bool) : EmbedField :=
  {| field_name := name; field_value := value; field_inline := inline |}.

(** ** The outside world *)

Record Request : Type := {
  req_url : string;
  req_params : list (string * pyval);
  req_headers : list (string * string)
}.

(** The decoded body of a response: a JSON object, of which the source
    reads the key [data] (an array of listings when it is there), or any
    other JSON value, of which the source meets the name of its Python
    type ([list], [str], [int], [float], [bool], [NoneType]). *)
Inductive JsonBody : Type :=
| JsonObject (data : option (list Listing))
| JsonOther (type_name : string).

Record Response : Type := {
  status : Z;
  response_text : string;
  json : result JsonBody
}.

Inductive LogLevel : Type := INFO | WARNING | ERROR.

(** What a handler does to the outside: log records and the calls of
    [channel.send] and [ctx.send], each recorded when it is made.  A
    [ChannelSend] is a send of the scheduler to the channel it resolved;
    a [CtxSend] is a reply of a command to the channel it was invoked
    in, which the event does not name. *)
Inductive Event : Type :=
| Log (level : LogLevel) (msg : string)
| ChannelSend (chan : Z) (content : string) (embed : Embed)
| CtxSend (content : option string) (embed : option Embed).

(** The answers of the outside world during one step of the process:
    [http_get n req] is the outcome of the [n]-th [session.get] of the
    step, [get_channel] tells whether a channel id resolves, and the two
    [send] oracles tell whether a send returns or raises.
    [fromisoformat s] tells whether the library gives the embed its
    timestamp from the text [s] (lines 93-98: [datetime.fromisoformat]
    reads it and [discord.Embed] takes the result) or raises; which
    texts are read depends on the version of the interpreter. *)
Record World : Type := {
  http_get : nat -> Request -> result Response;
  get_channel : Z -> bool;
  channel_send : Z -> string -> Embed -> result unit;
  ctx_send : option string -> option Embed -> result unit;
  fromisoformat : string -> result unit
}.

(** ** The bot *)

Record Bot : Type := {
  csfloat_api_key : option string;
  channel_id : Z;
  seen_listings : gset string;
  tracking_configs : list (string * Config)
}.

Definition set_seen_listings (s : gset string) (b : Bot) : Bot :=
  {| csfloat_api_key := csfloat_api_key b; channel_id := channel_id b;
     seen_listings := s; tracking_configs := tracking_configs b |}.

Definition set_tracking_configs (c : list (string * Config)) (b : Bot) : Bot :=
  {| csfloat_api_key := csfloat_api_key b; channel_id := channel_id b;
     seen_listings := seen_listings b; tracking_configs := c |}.

Definition set_channel_id (c : Z) (b : Bot) : Bot :=
  {| csfloat_api_key := csfloat_api_key b; channel_id := c;
     seen_listings := seen_listings b; tracking_configs := tracking_configs b |}.

(** [CSFloatBot.__init__] with the environment's key and channel. *)
Definition init (api_key : option string) (chan : Z) : Bot :=
  {| csfloat_api_key := api_key; channel_id := chan;
     seen_listings := ∅; tracking_configs := [] |}.

(** ** Fetch client *)

Definition base_url : string := "https://csfloat.com/api/v1/listings".

Definition fetch_headers (b : Bot) : list (string * string) :=
  match csfloat_api_key b with
  | Some key => if PyStr.truthy key then [("Authorization", key)] else []
  | None => []
  end.

(** The body of the [try] of [fetch_listings]. *)
Definition fetch_try (w : World) (n : nat) (b : Bot) (ps : list (string * pyval))
  : result (list Listing * list Event) :=
  response <- http_get w n {| req_url := base_url; req_params := ps;
                              req_headers := fetch_headers b |} ;;
  if status response =? 200 then
    response_data <- json response ;;
    match response_data with
    | JsonObject (Some data) => Ok (data, [])
    | JsonObject None => Ok ([], [])
    | JsonOther type_name =>
        Raise (AttributeError ("'" +:+ type_name +:+ "' object has no attribute 'get'"))
    end
  else
    Ok ([], [Log ERROR ("API request failed with status " +:+ PyStr.of_Z (status response));
             Log ERROR ("Response: " +:+ response_text response)]).

(** [fetch_listings]: the [try] with its [except Exception]; the
    listings and the log records. *)
Definition fetch_listings (w : World) (n : nat) (b : Bot) (ps : list (string * pyval))
  : result (list Listing * list Event) :=
  match fetch_try w n b ps with
  | Ok r => Ok r
  | Raise e => Ok ([], [Log ERROR ("Error fetching listings: " +:+ exn_text e)])
  end.

(** The [TypeError] of a call that binds [self] twice, in the words of
    the interpreter from version 3.10 on. *)
Definition multiple_values_for_self : exn :=
  TypeError "CSFloatBot.fetch_listings() got multiple values for argument 'self'".

(** The call [self.fetch_listings( **ps )] as the handlers write it: the
    dictionary is spread into keyword arguments, and a key [self]
    collides with the receiver, so that the call raises before the body
    runs. *)
Definition call_fetch_listings (w : World) (n : nat) (b : Bot)
  (ps : list (string * pyval)) : result (list Listing * list Event) :=
  if Dict.mem "self" ps then Raise multiple_values_for_self
  else fetch_listings w n b ps.

(** ** Notification builder *)

(** [str(v)] of a value that is a string or [None]. *)
Definition str_of_optional (v : option string) : string :=
  match v with Some s => s | None => "None" end.

(** Lines 121-123: the seller's display name; [None] is Python's
    [None], which a present [username: null] yields. *)
Definition seller_name (s : Seller) : option string :=
  let seller_name :=
    match username s with
    | Absent => Some "Anonymous"
    | Null => None
    | Present u => Some u
    end in
  let falsy := match seller_name with Some u => negb (PyStr.truthy u) | None => true end in
  match obfuscated_id s with
  | Some oid =>
      if falsy && PyStr.truthy oid then Some ("User " +:+ PyStr.take 8 oid +:+ "...")
      else seller_name
  | None => seller_name
  end.

(** [str(d.get(key, default))] for an optional key whose value has the
    text [text]: a [null] is shown as [None]. *)
Definition shown {A : Type} (text : A -> string) (default : string) (v : jfield A)
  : string :=
  match v with
  | Absent => default
  | Null => "None"
  | Present a => text a
  end.

(** Lines 110-118: the special flags, or the rarity grade. *)
Definition special_field (it : Item) : EmbedField :=
  let special :=
    (if default false (is_stattrak it) then ["StatTrak™"] else []) ++
    (if default false (is_souvenir it) then ["Souvenir"] else []) in
  match special with
  | [] =>
      add_field "📊 Rarity"
        ("Grade " +:+ shown PyStr.of_Z "Unknown" (rarity it)) true
  | _ => add_field "✨ Special" (PyStr.join " | " special) true
  end.

(** Lines 141-149: the text of the divergence field and its marker. *)
Definition divergence_text (divergence_pct : PyFloat.float) : string * string :=
  if PyFloat.gt0 divergence_pct then
    ("📈", "+" +:+ PyFloat.format_fixed 1 divergence_pct +:+ "%")
  else if PyFloat.lt0 divergence_pct then
    ("📉", PyFloat.format_fixed 1 divergence_pct +:+ "%")
  else ("⚖️", "0.0%").

(** [((a - b) / d) * 100] *)
Definition pct_of (a b d : PyFloat.float) : result PyFloat.float :=
  q <- PyFloat.truediv (PyFloat.sub a b) d ;;
  Ok (PyFloat.mul q (PyFloat.of_Z 100)).

(** [d.get(key, 0) / 100] for an amount in cents: [None / 100] raises. *)
Definition dollars (v : jfield Z) : result PyFloat.float :=
  match v with
  | Absent => PyFloat.int_truediv 0 100
  | Null => Raise (TypeError "unsupported operand type(s) for /: 'NoneType' and 'int'")
  | Present cents => PyFloat.int_truediv cents 100
  end.

(** Lines 127-160: the reference price, divergence and discount fields. *)
Definition reference_fields (price_usd : PyFloat.float) (r : option Reference)
  : result (list EmbedField) :=
  match r with
  | None => Ok []
  | Some reference =>
      predicted <- dollars (predicted_price reference) ;;
      base <- dollars (base_price reference) ;;
      shown <-
        (if PyFloat.gt0 predicted then
           divergence_pct <- pct_of price_usd predicted predicted ;;
           let '(divergence_emoji, text) := divergence_text divergence_pct in
           Ok [add_field "📈 Predicted" ("$" +:+ PyFloat.format_fixed 2 predicted) true;
               add_field (divergence_emoji +:+ " Divergence") text true]
         else Ok []) ;;
      discount <-
        (if PyFloat.gt0 base && PyFloat.ltb price_usd predicted then
           discount_pct <- pct_of predicted price_usd predicted ;;
           Ok [add_field "💸 Discount" (PyFloat.format_fixed 1 discount_pct +:+ "%") true]
         else Ok []) ;;
      Ok (shown ++ discount)
  end.

(** Lines 163-169: at most three sticker names, and how many more. *)
Definition sticker_fields (it : Item) : list EmbedField :=
  match stickers it with
  | Some ((_ :: _) as stickers) =>
      let sticker_names := map sticker_name (take 3 stickers) in
      let sticker_text := PyStr.join PyStr.nl sticker_names in
      let more :=
        if (3 <? length stickers)%nat then
          PyStr.nl +:+ "... and " +:+ PyStr.of_nat (length stickers - 3) +:+ " more"
        else EmptyString in
      [add_field "🏷️ Stickers" (sticker_text +:+ more) false]
  | _ => []
  end.

(** Lines 172-174: [None > 0] raises. *)
Definition watcher_fields (l : Listing) : result (list EmbedField) :=
  match watchers l with
  | Absent => Ok []
  | Null => Raise (TypeError "'>' not supported between instances of 'NoneType' and 'int'")
  | Present watchers =>
      Ok (if 0 <? watchers then [add_field "👀 Watchers" (PyStr.of_Z watchers) true]
          else [])
  end.

Definition cdn_base : string := "https://steamcommunity-a.akamaihd.net/economy/image/".

(** Lines 177-186: both branches for a relative icon reference give the
    same address. *)
Definition thumbnail (it : Item) : option string :=
  match icon_url it with
  | Some icon_url =>
      if PyStr.truthy icon_url then
        if PyStr.startswith "http" icon_url then Some icon_url
        else if PyStr.startswith "-9a81" icon_url then Some (cdn_base +:+ icon_url)
        else Some (cdn_base +:+ icon_url)
      else None
  | None => None
  end.

(** Lines 189-191 *)
Definition description_fields (l : Listing) : list EmbedField :=
  match description l with
  | Some description =>
      if PyStr.truthy description then
        [add_field "📝 Note"
           (PyStr.take 100 description +:+
            (if (100 <? String.length description)%nat then "..." else EmptyString))
           false]
      else []
  | None => []
  end.

Definition item_url (id : string) : string := "https://csfloat.com/item/" +:+ id.

(** Line 97: the text given to [datetime.fromisoformat]. *)
Definition timestamp_text (listing : Listing) : string :=
  PyStr.replace_char "Z" "+00:00" (created_at listing).

(** [create_listing_embed(listing)], in the order of the source: the
    embed with its timestamp (lines 93-98), the price, the six fields
    that are always there, the reference fields, the stickers, the
    watchers, the thumbnail, the note and the footer.  What raises first
    is what the caller sees. *)
Definition create_listing_embed (w : World) (listing : Listing) : result Embed :=
  let item := item listing in
  let seller := seller listing in
  _ <- fromisoformat w (timestamp_text listing) ;;
  price_usd <- PyFloat.int_truediv (price listing) 100 ;;
  let head :=
    [add_field "💰 Price" ("$" +:+ PyFloat.format_fixed 2 price_usd) true;
     add_field "🎯 Float" (PyFloat.format_fixed 6 (float_value item)) true;
     add_field "🎨 Paint Seed" (shown PyStr.of_Z "N/A" (paint_seed item)) true;
     add_field "👕 Condition" (shown (fun name => name) "Unknown" (wear_name item)) true;
     special_field item;
     add_field "👤 Seller" (str_of_optional (seller_name seller)) true] in
  ref <- reference_fields price_usd (reference listing) ;;
  watch <- watcher_fields listing ;;
  Ok {| embed_title := market_hash_name item;
        embed_description := None;
        embed_url := Some (item_url (listing_id listing));
        embed_color := blue;
        embed_timestamp := Some (timestamp_text listing);
        embed_fields :=
          head ++ ref ++ sticker_fields item ++ watch ++ description_fields listing;
        embed_thumbnail := thumbnail item;
        embed_footer := Some ("CS Float • ID: " +:+ listing_id listing) |}.

(** ** [json.dumps(d, indent=2)] for a flat dictionary *)

Module Json.

Definition dquote : string := String (ascii_of_nat 34) EmptyString.
Definition backslash : string := String (ascii_of_nat 92) EmptyString.

Definition hex_digit (d : nat) : ascii :=
  ascii_of_nat (if (d <? 10)%nat then 48 + d else 87 + d).

(** The escape of one character with [ensure_ascii]: a code point
    outside the printable range space..tilde is escaped, as [\u00XX]
    for the code points 0..255 of this file. *)
Definition escape_char (c : ascii) : string :=
  let n := nat_of_ascii c in
  if (n =? 34)%nat then backslash +:+ dquote
  else if (n =? 92)%nat then backslash +:+ backslash
  else if (n =? 10)%nat then backslash +:+ "n"
  else if (n =? 13)%nat then backslash +:+ "r"
  else if (n =? 9)%nat then backslash +:+ "t"
  else if (n =? 8)%nat then backslash +:+ "b"
  else if (n =? 12)%nat then backslash +:+ "f"
  else if ((n <? 32) || (126 <? n))%nat then
    backslash +:+ "u00" +:+
    String (hex_digit (n / 16)) (String (hex_digit (n mod 16)) EmptyString)
  else String c EmptyString.

Fixpoint escape (s : string) : string :=
  match s with
  | EmptyString => EmptyString
  | String c s' => escape_char c +:+ escape s'
  end.

Definition encode_str (s : string) : string := dquote +:+ escape s +:+ dquote.

Definition encode_float (x : PyFloat.float) : string :=
  match x with
  | S754_nan => "NaN"
  | S754_infinity false => "Infinity"
  | S754_infinity true => "-Infinity"
  | _ => PyFloat.repr x
  end.

Definition encode (v : pyval) : string :=
  match v with
  | PInt z => PyStr.of_Z z
  | PFloat x => encode_float x
  | PStr s => encode_str s
  end.

Definition dumps_indent2 (d : list (string * pyval)) : string :=
  match d with
  | [] => "{}"
  | _ =>
      "{" +:+ PyStr.nl +:+
      PyStr.join ("," +:+ PyStr.nl)
        (map (fun kv => "  " +:+ encode_str (fst kv) +:+ ": " +:+ encode (snd kv)) d) +:+
      PyStr.nl +:+ "}"
  end.

End Json.

(** ** Polling scheduler *)

(** Lines 216-220: one listing against the seen set; [acc] is
    [new_listings] and [seen_listings]. *)
Definition diff_step (acc : list Listing * gset string) (l : Listing)
  : list Listing * gset string :=
  let '(new_listings, seen) := acc in
  if bool_decide (listing_id l ∈ seen) then acc
  else (new_listings ++ [l], {[listing_id l]} ∪ seen).

Definition diff_listings (listings : list Listing) (seen : gset string)
  : list Listing * gset string :=
  foldl diff_step ([], seen) listings.

Definition new_listing_text (config_name : string) : string :=
  "🆕 **New " +:+ config_name +:+ " Listing!**".

(** Lines 223-225: build and send, in order, until one of the two
    raises; the calls made and how the loop ended. *)
Fixpoint send_new (w : World) (chan : Z) (config_name : string) (ls : list Listing)
  : list Event * result unit :=
  match ls with
  | [] => ([], Ok tt)
  | listing :: rest =>
      match create_listing_embed w listing with
      | Raise e => ([], Raise e)
      | Ok embed =>
          let call := ChannelSend chan (new_listing_text config_name) embed in
          match channel_send w chan (new_listing_text config_name) embed with
          | Raise e => ([call], Raise e)
          | Ok _ =>
              let '(calls, r) := send_new w chan config_name rest in
              (call :: calls, r)
          end
      end
  end.

(** Lines 210-231: the body of the loop for one configuration, [n] being
    its position in the store.  The random sleep before the fetch takes
    time and changes nothing else. *)
Definition check_config (w : World) (chan : Z) (n : nat)
  (config_name : string) (config : Config) (b : Bot) : Bot * list Event :=
  let failed (e : exn) :=
    Log ERROR ("Error checking listings for " +:+ config_name +:+ ": " +:+ exn_text e) in
  match call_fetch_listings w n b (params config) with
  | Raise e => (b, [failed e])
  | Ok (listings, fetch_log) =>
      let '(new_listings, seen) := diff_listings listings (seen_listings b) in
      let '(calls, r) := send_new w chan config_name (take 5 new_listings) in
      let closing :=
        match r with
        | Ok _ =>
            match new_listings with
            | [] => []
            | _ => [Log INFO ("Posted " +:+ PyStr.of_nat (length new_listings) +:+
                              " new listings for " +:+ config_name)]
            end
        | Raise e => [failed e]
        end in
      (set_seen_listings seen b, fetch_log ++ calls ++ closing)
  end.

(** Line 209: the loop over the configurations of the store as it is
    when the cycle begins.  (The source iterates the live dictionary: a
    command that runs while the cycle waits and changes the size of the
    store ends the iteration with [RuntimeError], outside the [try];
    such cycles are not among the steps of this file.) *)
Fixpoint check_configs (w : World) (chan : Z) (n : nat)
  (configs : list (string * Config)) (b : Bot) : Bot * list Event :=
  match configs with
  | [] => (b, [])
  | (config_name, config) :: rest =>
      let '(b1, ev1) := check_config w chan n config_name config b in
      let '(b2, ev2) := check_configs w chan (S n) rest b1 in
      (b2, ev1 ++ ev2)
  end.

(** [check_listings]: one tick of the 60-second loop. *)
Definition check_listings (w : World) (b : Bot) : Bot * list Event :=
  match tracking_configs b with
  | [] => (b, [])
  | configs =>
      if get_channel w (channel_id b) then
        check_configs w (channel_id b) 0 configs b
      else
        (b, [Log WARNING ("Channel with ID " +:+ PyStr.of_Z (channel_id b) +:+ " not found")])
  end.

(** ** Commands *)

(** Lines 276-282: a numeric-looking value becomes a number. *)
Definition coerce (value : string) : pyval :=
  if PyStr.contains "." value then
    match PyFloat.parse_float value with
    | Some x => PFloat x
    | None => PStr value
    end
  else
    match PyFloat.parse_int value with
    | Some z => PInt z
    | None => PStr value
    end.

Inductive Parsed : Type :=
| Params (param_dict : list (string * pyval))
| InvalidSort (value : string).

(** Lines 260-282: the loop over the [key=value] tokens; it stops at the
    first [sort_by] whose value is not a sort option. *)
Fixpoint parse_params (tokens : list string) (param_dict : list (string * pyval))
  : Parsed :=
  match tokens with
  | [] => Params param_dict
  | param :: rest =>
      match PyStr.split_once "=" param with
      | None => parse_params rest param_dict
      | Some (key, value) =>
          if String.eqb key "sort_by" then
            match SortOption_lookup value with
            | Some sort_value =>
                parse_params rest
                  (Dict.set key (PStr (SortOption_value sort_value)) param_dict)
            | None => InvalidSort value
            end
          else parse_params rest (Dict.set key (coerce value) param_dict)
      end
  end.

Definition invalid_sort_text (value : string) : string :=
  "❌ Invalid sort option '" +:+ value +:+ "'. Valid options: " +:+
  PyStr.join ", " valid_options.

(** The [Tracking Started] embed, with the [Initial Check] field when
    [found] is given. *)
Definition tracking_started (name : string) (param_dict : list (string * pyval))
  (found : option nat) : Embed :=
  {| embed_title := "✅ Tracking Started";
     embed_description := Some ("Now tracking **" +:+ name +:+ "** items");
     embed_url := None;
     embed_color := green;
     embed_timestamp := None;
     embed_fields :=
       add_field "Parameters" (Json.dumps_indent2 param_dict) false ::
       match found with
       | Some n =>
           [add_field "Initial Check"
              ("Found " +:+ PyStr.of_nat n +:+ " existing listings (marked as seen)") false]
       | None => []
       end;
     embed_thumbnail := None;
     embed_footer := None |}.

(** Lines 323-324: the report of the [except] of [track_items]. *)
Definition setup_failed (e : exn) : Event :=
  CtxSend (Some ("❌ Error setting up tracking: " +:+ exn_text e)) None.

(** A [ctx.send] inside the [try] of [track_items]: the call, and the
    report of the handler when it raises. *)
Definition send_in_try (w : World) (content : option string) (embed : option Embed)
  : list Event * result unit :=
  match ctx_send w content embed with
  | Ok _ => ([CtxSend content embed], Ok tt)
  | Raise e => ([CtxSend content embed; setup_failed e], Raise e)
  end.

(** Lines 307-308 *)
Definition mark_seen (listings : list Listing) (seen : gset string) : gset string :=
  foldl (fun s l => {[listing_id l]} ∪ s) seen listings.

(** Lines 252-257: the dictionary before the extra parameters. *)
Definition default_params (def_index paint_index : Z) : list (string * pyval) :=
  [("def_index", PInt def_index); ("paint_index", PInt paint_index);
   ("limit", PInt 20); ("sort_by", PStr (SortOption_value BEST_DEAL))].

(** Lines 259-260: the tokens of the extra parameters. *)
Definition track_tokens (params : string) : list string :=
  if PyStr.truthy params then PyStr.split_ws params else [].

(** Lines 250-301 of [track_items(ctx, name, def_index, paint_index,
    params)], [chan] being [ctx.channel.id]: the handler up to the
    [await] of its confirmation.  The store and the default channel are
    written before that [await].  The third component is the dictionary
    the handler holds when it goes on to the initial fetch, [None] when
    it has returned.  When the confirmation cannot be sent, the handler
    has nothing left to do but report it (lines 323-324), which changes
    nothing of the bot and is kept in this step. *)
Definition track_items_begin (w : World) (chan : Z) (name : string)
  (def_index paint_index : Z) (params : string) (b : Bot)
  : Bot * list Event * option (list (string * pyval)) :=
  match parse_params (track_tokens params) (default_params def_index paint_index) with
  | InvalidSort value =>
      (b, fst (send_in_try w (Some (invalid_sort_text value)) None), None)
  | Params param_dict =>
      let b1 :=
        set_tracking_configs
          (Dict.set name {| params := param_dict; channel := chan |}
                    (tracking_configs b)) b in
      let b2 :=
        if (length (tracking_configs b1) =? 1)%nat then set_channel_id chan b1 else b1 in
      match send_in_try w None (Some (tracking_started name param_dict None)) with
      | (ev, Raise _) => (b2, ev, None)
      | (ev, Ok _) => (b2, ev, Some param_dict)
      end
  end.

(** Lines 304-324 of [track_items]: the initial fetch and what follows
    it, from the state [b] the bot is in when the handler goes on. *)
Definition track_items_resume (w : World) (name : string)
  (param_dict : list (string * pyval)) (b : Bot) : Bot * list Event :=
  match call_fetch_listings w 0 b param_dict with
  | Raise e => (b, [setup_failed e])
  | Ok ([], fetch_log) => (b, fetch_log)
  | Ok (initial_listings, fetch_log) =>
      (set_seen_listings (mark_seen initial_listings (seen_listings b)) b,
       fetch_log ++
       fst (send_in_try w None
              (Some (tracking_started name param_dict
                       (Some (length initial_listings))))))
  end.

(** [track_items] when no other handler runs while it waits. *)
Definition track_items (w : World) (chan : Z) (name : string)
  (def_index paint_index : Z) (params : string) (b : Bot) : Bot * list Event :=
  match track_items_begin w chan name def_index paint_index params b with
  | (b2, ev, None) => (b2, ev)
  | (b2, ev, Some param_dict) =>
      let '(b3, ev') := track_items_resume w name param_dict b2 in
      (b3, ev ++ ev')
  end.

(** [untrack_items(ctx, name)] *)
Definition untrack_items (w : World) (name : string) (b : Bot) : Bot * list Event :=
  if Dict.mem name (tracking_configs b) then
    (set_tracking_configs (Dict.del name (tracking_configs b)) b,
     [CtxSend (Some ("✅ Stopped tracking **" +:+ name +:+ "**")) None])
  else
    (b, [CtxSend (Some ("❌ No tracking configuration found for **" +:+ name +:+ "**")) None]).

(** Line 345: the lines [key: value] of one configuration. *)
Definition params_str (ps : list (string * pyval)) : string :=
  PyStr.join PyStr.nl (map (fun kv => fst kv +:+ ": " +:+ pyval_str (snd kv)) ps).

(** The embed of [list_tracking]: one field per configuration. *)
Definition tracking_embed (configs : list (string * Config)) : Embed :=
  {| embed_title := "📊 Active Tracking Configurations";
     embed_description := None;
     embed_url := None;
     embed_color := blue;
     embed_timestamp := None;
     embed_fields :=
       map (fun nc => add_field (fst nc)
                        ("```" +:+ params_str (params (snd nc)) +:+ "```") false)
           configs;
     embed_thumbnail := None;
     embed_footer := None |}.

(** [list_tracking(ctx)] *)
Definition list_tracking (w : World) (b : Bot) : Bot * list Event :=
  match tracking_configs b with
  | [] => (b, [CtxSend (Some "No items are currently being tracked.") None])
  | configs => (b, [CtxSend None (Some (tracking_embed configs))])
  end.

(** [test_fetch(ctx, def_index, paint_index, limit, sort_by)] *)
Definition test_fetch (w : World) (def_index : Z) (paint_index : option Z)
  (limit : Z) (sort_by : string) (b : Bot) : Bot * list Event :=
  let given := match paint_index with Some p => negb (p =? 0) | None => false end in
  let params := [("def_index", PInt def_index); ("limit", PInt limit)] in
  let params :=
    if given then Dict.set "paint_index" (PInt (default 0 paint_index)) params
    else params in
  let suffix :=
    if given then " paint_index " +:+ PyStr.of_Z (default 0 paint_index)
    else EmptyString in
  match SortOption_lookup sort_by with
  | None => (b, [CtxSend (Some (invalid_sort_text sort_by)) None])
  | Some sort_value =>
      let params := Dict.set "sort_by" (PStr (SortOption_value sort_value)) params in
      match call_fetch_listings w 0 b params with
      | Raise _ => (b, [])
      | Ok ([], fetch_log) =>
          (b, fetch_log ++
              [CtxSend (Some ("❌ No listings found for def_index " +:+
                              PyStr.of_Z def_index +:+ suffix)) None])
      | Ok ((first :: _) as listings, fetch_log) =>
          let found :=
            Some ("✅ Found " +:+ PyStr.of_nat (length listings) +:+
                  " listings for def_index " +:+ PyStr.of_Z def_index +:+ suffix +:+
                  " (sorted by " +:+ sort_by +:+ ")") in
          (b, fetch_log ++ CtxSend found None ::
              match ctx_send w found None, create_listing_embed w first with
              | Ok _, Ok embed => [CtxSend (Some "**Example listing:**") (Some embed)]
              | _, _ => []
              end)
      end
  end.

(** ** The process: a run of steps *)

(** A step of the process: a polling cycle, a command, or one of the
    two parts of a [track] that other handlers run in between of. *)
Inductive Op : Type :=
| Tick
| Track (chan : Z) (name : string) (def_index paint_index : Z) (params : string)
| TrackBegin (chan : Z) (name : string) (def_index paint_index : Z) (params : string)
| TrackResume (name : string) (param_dict : list (string * pyval))
| Untrack (name : string)
| ListTracking
| TestFetch (def_index : Z) (paint_index : option Z) (limit : Z) (sort_by : string).

Definition step (w : World) (op : Op) (b : Bot) : Bot * list Event :=
  match op with
  | Tick => check_listings w b
  | Track chan name def_index paint_index params =>
      track_items w chan name def_index paint_index params b
  | TrackBegin chan name def_index paint_index params =>
      (track_items_begin w chan name def_index paint_index params b).1
  | TrackResume name param_dict => track_items_resume w name param_dict b
  | Untrack name => untrack_items w name b
  | ListTracking => list_tracking w b
  | TestFetch def_index paint_index limit sort_by =>
      test_fetch w def_index paint_index limit sort_by b
  end.

(** The steps one after the other, each in the world of its time. *)
Fixpoint run (ops : list (World * Op)) (b : Bot) : Bot * list Event :=
  match ops with
  | [] => (b, [])
  | (w, op) :: rest =>
      let '(b1, ev1) := step w op b in
      let '(b2, ev2) := run rest b1 in
      (b2, ev1 ++ ev2)
  end.

(** ** Observations on a trace *)

(** A [channel.send] whose embed links to the listing [id] is a
    notification for [id]. *)
Definition notifies (id : string) (ev : Event) : bool :=
  match ev with
  | ChannelSend _ _ embed => bool_decide (embed_url embed = Some (item_url id))
  | _ => false
  end.

Fixpoint notifications (id : string) (evs : list Event) : nat :=
  match evs with
  | [] => 0%nat
  | ev :: rest => ((if notifies id ev then 1 else 0) + notifications id rest)%nat
  end.

(** The [channel.send] calls of a trace, in order: the sends of the
    scheduler, without the replies of the commands. *)
Fixpoint sends (evs : list Event) : list Event :=
  match evs with
  | [] => []
  | ChannelSend chan content embed :: rest => ChannelSend chan content embed :: sends rest
  | _ :: rest => sends rest
  end.

(** The notification of the scheduler for one listing, when its embed
    can be built. *)
Definition notification (w : World) (chan : Z) (config_name : string) (l : Listing)
  : option Event :=
  match create_listing_embed w l with
  | Ok embed => Some (ChannelSend chan (new_listing_text config_name) embed)
  | Raise _ => None
  end.

(** The transport takes the notifications of all of [ls]: every embed
    builds and every send returns. *)
Definition healthy (w : World) (chan : Z) (config_name : string) (ls : list Listing) : Prop :=
  Forall (fun l => exists embed,
            create_listing_embed w l = Ok embed /\
            channel_send w chan (new_listing_text config_name) embed = Ok tt) ls.

Definition ids (ls : list Listing) : list string := map listing_id ls.

(** What [fetch_listings] returns, without the [result] around it. *)
Definition fetched (w : World) (n : nat) (b : Bot) (ps : list (string * pyval))
  : list Listing * list Event :=
  match fetch_try w n b ps with
  | Ok r => r
  | Raise e => ([], [Log ERROR ("Error fetching listings: " +:+ exn_text e)])
  end.

(** What a handler gets from its call of the fetch client: nothing when
    the call itself raises. *)
Definition answered (w : World) (n : nat) (b : Bot) (ps : list (string * pyval))
  : list Listing * list Event :=
  if Dict.mem "self" ps then ([], []) else fetched w n b ps.

(** The relation between the state before and after a handler and its
    trace that the seen set is there to keep: the set only grows, a seen
    id is not notified, no id is notified twice, and a notified id is
    seen afterwards. *)
Definition dedup_ok (seen seen' : gset string) (evs : list Event) : Prop :=
  seen ⊆ seen' /\
  forall id,
    (id ∈ seen -> notifications id evs = 0%nat) /\
    (notifications id evs <= 1)%nat /\
    ((0 < notifications id evs)%nat -> id ∈ seen').

(** The new listings of a configuration in a cycle: the listings of the
    answer whose id is not yet seen. *)
Definition new_listings_of (w : World) (n : nat) (config : Config) (b : Bot) : list Listing :=
  (diff_listings (answered w n b (params config)).1 (seen_listings b)).1.

(** The fields of an embed that carry the divergence (under any of its
    three markers) and the discount. *)
Definition divergence_names : list string :=
  ["📈 Divergence"; "📉 Divergence"; "⚖️ Divergence"].

Definition is_divergence (f : EmbedField) : bool :=
  existsb (String.eqb (field_name f)) divergence_names.

Definition is_discount (f : EmbedField) : bool :=
  String.eqb (field_name f) "💸 Discount".

Definition divergence_fields (e : Embed) : list EmbedField :=
  List.filter is_divergence (embed_fields e).

Definition discount_fields (e : Embed) : list EmbedField :=
  List.filter is_discount (embed_fields e).

(** The fields of an embed under a given name. *)
Definition fields_named (name : string) (e : Embed) : list EmbedField :=
  List.filter (fun f => String.eqb (field_name f) name) (embed_fields e).

(** The divergence and discount fields of the notification of a
    listing; nothing when the embed cannot be built. *)
Definition price_fields (w : World) (l : Listing) : list EmbedField * list EmbedField :=
  match create_listing_embed w l with
  | Ok embed => (divergence_fields embed, discount_fields embed)
  | Raise _ => ([], [])
  end.

(** Whether a cycle in world [w] from state [b] gets the listing [id]
    from the fetch client: the channel resolves and the answer for one
    of the configurations holds it. *)
Definition returned (w : World) (b : Bot) (id : string) : Prop :=
  get_channel w (channel_id b) = true /\
  exists n name config,
    tracking_configs b !! n = Some (name, config) /\
    id ∈ ids (answered w n b (params config)).1.

(** ** Sample data *)

Definition sample_item : Item :=
  {| market_hash_name := "AK-47 | Redline (Field-Tested)";
     float_value := PyFloat.of_decimal false 15 (-2);
     paint_seed := Present 661;
     wear_name := Present "Field-Tested";
     is_stattrak := Some false;
     is_souvenir := Some false;
     rarity := Present 5;
     stickers := None;
     icon_url := None |}.

Definition sample_listing (id : string) (s : Seller) (cents : Z) (r : option Reference)
  : Listing :=
  {| listing_id := id;
     item := sample_item;
     seller := s;
     created_at := "2024-05-01T12:00:00Z";
     price := cents;
     reference := r;
     watchers := Absent;
     description := None |}.

Definition named_seller : Seller :=
  {| username := Present "trader"; obfuscated_id := None |}.

(** A seller object that carries an obfuscated id and no [username] key. *)
Definition obfuscated_seller : Seller :=
  {| username := Absent; obfuscated_id := Some "1234567890abcdef" |}.

Definition sample_listings (names : list string) : list Listing :=
  map (fun id => sample_listing id named_seller 9000 None) names.

Definition six_listings : list Listing :=
  sample_listings ["L1"; "L2"; "L3"; "L4"; "L5"; "L6"].


(** The timestamp of the sample listings is in the format of the
    endpoint, which every version of the library reads once the [Z] is
    replaced; the sample worlds are given no other text. *)
Definition sample_fromisoformat (s : string) : result unit :=
  if String.eqb s "2024-05-01T12:00:00+00:00" then Ok tt
  else Raise (ValueError ("Invalid isoformat string: '" +:+ s +:+ "'")).

(** A world whose endpoint answers every request with status 200 and
    the listings [data], whose channels all resolve and whose sends all
    return. *)
Definition world_of (data : list Listing) : World :=
  {| http_get := fun _ _ =>
       Ok {| status := 200; response_text := "<ClientResponse [200 OK]>";
             json := Ok (JsonObject (Some data)) |};
     get_channel := fun _ => true;
     channel_send := fun _ _ _ => Ok tt;
     ctx_send := fun _ _ => Ok tt;
     fromisoformat := sample_fromisoformat |}.

(** The bot after [!track X 7 282] in a world without listings. *)
Definition tracking_X : Bot :=
  (track_items (world_of []) 1 "X" 7 282 EmptyString (init None 1)).1.

(** A listing priced [cents] with predicted price 100.00 and base price
    100.00. *)
Definition priced (cents : Z) : Listing :=
  sample_listing "P" named_seller cents
    (Some {| predicted_price := Present 10000; base_price := Present 10000 |}).

(** ** Further observations and commands *)

(** A [channel.send] of the scheduler as the source writes it: to the
    channel [chan], under the header of a stored configuration, with the
    embed of a listing whose id was not seen when the cycle began. *)
Definition scheduler_send (w : World) (b : Bot) (ev : Event) : Prop :=
  exists name config l embed,
    ev = ChannelSend (channel_id b) (new_listing_text name) embed /\
    (name, config) ∈ tracking_configs b /\
    create_listing_embed w l = Ok embed /\
    listing_id l ∉ seen_listings b.

(** The keys every stored parameter dictionary has, and its sort option. *)
Definition well_formed_params (ps : list (string * pyval)) : Prop :=
  Dict.mem "def_index" ps = true /\
  Dict.mem "paint_index" ps = true /\
  Dict.mem "limit" ps = true /\
  exists o, Dict.get "sort_by" ps = Some (PStr (SortOption_value o)).

(** What the store can be: distinct names, well-formed parameters. *)
Definition store_ok (configs : list (string * Config)) : Prop :=
  NoDup configs.*1 /\
  forall name config, (name, config) ∈ configs -> well_formed_params (params config).

(** Lines 389-398: the descriptions [sort_options] shows. *)
Definition sort_descriptions : list (SortOption * string) :=
  [(BEST_DEAL, "Best value deals (default)");
   (HIGHEST_DISCOUNT, "Highest discount from predicted price");
   (LOWEST_PRICE, "Lowest price first");
   (HIGHEST_PRICE, "Highest price first");
   (MOST_RECENT, "Most recently listed");
   (LOWEST_FLOAT, "Lowest float value first");
   (HIGHEST_FLOAT, "Highest float value first");
   (CREATED_AT, "Sort by creation time")].

(** The embed of [sort_options]. *)
Definition sort_options_embed : Embed :=
  {| embed_title := "🔄 Available Sort Options";
     embed_description := Some "Use these values for the sort_by parameter";
     embed_url := None;
     embed_color := purple;
     embed_timestamp := None;
     embed_fields :=
       map (fun od => add_field (SortOption_value od.1) od.2 false) sort_descriptions ++
       [add_field "Example Usage"
          "```!track 'Crimson Kimono' 5034 10033 sort_by=highest_discount max_float=0.08```"
          false];
     embed_thumbnail := None;
     embed_footer := None |}.

(** [sort_options(ctx)] *)
Definition sort_options (w : World) (b : Bot) : Bot * list Event :=
  (b, [CtxSend None (Some sort_options_embed)]).

(** The names of the four fields every notification starts with. *)
Definition leading_names : list string :=
  ["💰 Price"; "🎯 Float"; "🎨 Paint Seed"; "👕 Condition"].

(** A world like [world_of data] whose channel refuses every message. *)
Definition refusing_world (data : list Listing) : World :=
  {| http_get := http_get (world_of data);
     get_channel := fun _ => true;
     channel_send := fun _ _ _ => Raise (TransportError "403 Forbidden");
     ctx_send := fun _ _ => Raise (TransportError "403 Forbidden");
     fromisoformat := sample_fromisoformat |}.

(** A world whose endpoint answers every request with status 500. *)
Definition failing_world : World :=
  {| http_get := fun _ _ =>
       Ok {| status := 500; response_text := "<ClientResponse [500]>";
             json := Raise (ValueError "Expecting value: line 1 column 1 (char 0)") |};
     get_channel := fun _ => true;
     channel_send := fun _ _ _ => Ok tt;
     ctx_send := fun _ _ => Ok tt;
     fromisoformat := sample_fromisoformat |}.

(** A world whose endpoint answers the first request of a run with
    status 500 and the later ones with the listings [data]. *)
Definition failing_first (data : list Listing) : World :=
  {| http_get := fun n r =>
       match n with
       | O => http_get failing_world n r
       | S _ => http_get (world_of data) n r
       end;
     get_channel := fun _ => true;
     channel_send := fun _ _ _ => Ok tt;
     ctx_send := fun _ _ => Ok tt;
     fromisoformat := sample_fromisoformat |}.

(** The names of the fields that come from the reference prices. *)
Definition reference_names : list string :=
  "📈 Predicted" :: divergence_names ++ ["💸 Discount"].

(** The names of the six fields every notification starts with; the
    fifth is one of two. *)
Definition fixed_names : list string :=
  leading_names ++ ["📊 Rarity"; "✨ Special"; "👤 Seller"].

(** Lines 189-191: the text of the note for a description. *)
Definition note_text (description : string) : string :=
  if (100 <? String.length description)%nat
  then PyStr.take 100 description +:+ "..."
  else description.

(** A listing with a negative price whose reference has a base price and
    no predicted price. *)
Definition negative_priced : Listing :=
  sample_listing "N" named_seller (-500)
    (Some {| predicted_price := Absent; base_price := Present 10000 |}).

(** * Properties *)

(** ** Traces *)

Lemma notifications_app id evs1 evs2 :
  notifications id (evs1 ++ evs2) = (notifications id evs1 + notifications id evs2)%nat.
Proof. induction evs1 as [|ev evs1 IH]; simpl; [done|]. rewrite IH. lia. Qed.

Lemma sends_app evs1 evs2 : sends (evs1 ++ evs2) = sends evs1 ++ sends evs2.
Proof.
  induction evs1 as [|ev evs1 IH]; simpl; [done|].
  destruct ev; simpl; by rewrite ?IH.
Qed.

(** A trace without [channel.send] notifies nobody. *)
Lemma notifications_silent id evs : sends evs = [] -> notifications id evs = 0%nat.
Proof.
  induction evs as [|ev evs IH]; simpl; [done|].
  destruct ev; simpl; try done; auto.
Qed.

Lemma notifications_sends id evs : notifications id (sends evs) = notifications id evs.
Proof.
  induction evs as [|ev evs IH]; simpl; [done|].
  destruct ev; simpl; by rewrite ?IH.
Qed.

Lemma dedup_ok_silent seen seen' evs :
  seen ⊆ seen' -> sends evs = [] -> dedup_ok seen seen' evs.
Proof.
  intros Hsub Hs. split; [done|]. intros id.
  rewrite (notifications_silent id evs Hs). repeat split; [lia | lia].
Qed.

Lemma dedup_ok_compose seen0 seen1 seen2 evs1 evs2 :
  dedup_ok seen0 seen1 evs1 -> dedup_ok seen1 seen2 evs2 ->
  dedup_ok seen0 seen2 (evs1 ++ evs2).
Proof.
  intros [Hsub1 H1] [Hsub2 H2]. split; [set_solver|].
  intros id. rewrite notifications_app.
  destruct (H1 id) as (Ha1 & Hb1 & Hc1), (H2 id) as (Ha2 & Hb2 & Hc2).
  repeat split.
  - intros Hin. rewrite Ha1 by done. rewrite Ha2; [done | set_solver].
  - destruct (decide (0 < notifications id evs1)%nat) as [Hpos|Hz].
    + rewrite Ha2; [lia | auto].
    + lia.
  - intros Hpos. destruct (decide (0 < notifications id evs1)%nat) as [Hp|Hz].
    + set_solver.
    + apply Hc2. lia.
Qed.

(** ** The link of an embed identifies its listing *)

Lemma append_inj_r (p a b : string) : p +:+ a = p +:+ b -> a = b.
Proof. induction p as [|c p IH]; simpl; [done|]. intros [= H]. by apply IH. Qed.

Lemma item_url_inj a b : item_url a = item_url b -> a = b.
Proof. apply append_inj_r. Qed.

(** What an embed that is built is made of: every part of the builder
    that can raise has returned. *)
Lemma create_listing_embed_layout w l embed :
  create_listing_embed w l = Ok embed ->
  exists price_usd ref watch,
    fromisoformat w (timestamp_text l) = Ok tt /\
    PyFloat.int_truediv (price l) 100 = Ok price_usd /\
    reference_fields price_usd (reference l) = Ok ref /\
    watcher_fields l = Ok watch /\
    embed_fields embed
    = [add_field "💰 Price" ("$" +:+ PyFloat.format_fixed 2 price_usd) true;
       add_field "🎯 Float" (PyFloat.format_fixed 6 (float_value (item l))) true;
       add_field "🎨 Paint Seed" (shown PyStr.of_Z "N/A" (paint_seed (item l))) true;
       add_field "👕 Condition"
         (shown (fun name => name) "Unknown" (wear_name (item l))) true;
       special_field (item l);
       add_field "👤 Seller" (str_of_optional (seller_name (seller l))) true] ++
      ref ++ sticker_fields (item l) ++ watch ++ description_fields l /\
    embed_title embed = market_hash_name (item l) /\
    embed_url embed = Some (item_url (listing_id l)) /\
    embed_footer embed = Some ("CS Float • ID: " +:+ listing_id l) /\
    embed_thumbnail embed = thumbnail (item l).
Proof.
  unfold create_listing_embed, bind.
  destruct (fromisoformat w (timestamp_text l)) as [[]|] eqn:Hts; [|done].
  destruct (PyFloat.int_truediv (price l) 100) as [price_usd|] eqn:Hprice; [|done].
  destruct (reference_fields price_usd (reference l)) as [ref|] eqn:Href; [|done].
  destruct (watcher_fields l) as [watch|] eqn:Hwatch; [|done].
  intros [= <-]. exists price_usd, ref, watch. split_and!; done.
Qed.

Lemma create_listing_embed_url w l embed :
  create_listing_embed w l = Ok embed -> embed_url embed = Some (item_url (listing_id l)).
Proof.
  intros He. by destruct (create_listing_embed_layout w l embed He)
    as (? & ? & ? & _ & _ & _ & _ & _ & _ & ? & _).
Qed.

Lemma notifies_notification w chan name l ev id :
  notification w chan name l = Some ev -> notifies id ev = bool_decide (listing_id l = id).
Proof.
  unfold notification. destruct (create_listing_embed w l) as [embed|] eqn:He; [|done].
  intros [= <-]. simpl. rewrite (create_listing_embed_url _ _ _ He).
  apply bool_decide_ext. split.
  - intros H. apply item_url_inj. congruence.
  - by intros ->.
Qed.

(** ** The fetch client returns *)

Lemma fetch_listings_fetched w n b ps :
  fetch_listings w n b ps = Ok (fetched w n b ps).
Proof. unfold fetch_listings, fetched. by destruct (fetch_try w n b ps). Qed.

Lemma fetched_silent w n b ps : sends (fetched w n b ps).2 = [].
Proof.
  unfold fetched, fetch_try, bind.
  destruct (http_get w n _) as [response|e]; [|done].
  destruct (status response =? 200); [|done].
  destruct (json response) as [[[data|]|type_name]|e]; done.
Qed.


Lemma call_fetch_listings_answered w n b ps :
  call_fetch_listings w n b ps
  = if Dict.mem "self" ps then Raise multiple_values_for_self
    else Ok (answered w n b ps).
Proof.
  unfold call_fetch_listings, answered. rewrite fetch_listings_fetched.
  by destruct (Dict.mem "self" ps).
Qed.

Lemma answered_silent w n b ps : sends (answered w n b ps).2 = [].
Proof. unfold answered. destruct (Dict.mem "self" ps); [done | apply fetched_silent]. Qed.


Lemma set_seen_listings_same b : set_seen_listings (seen_listings b) b = b.
Proof. by destruct b. Qed.

(** ** The diff against the seen set *)

Lemma diff_foldl ls : forall acc seen,
  foldl diff_step (acc, seen) ls
  = (acc ++ (diff_listings ls seen).1, (diff_listings ls seen).2).
Proof.
  unfold diff_listings.
  induction ls as [|l ls IH]; intros acc seen; simpl.
  - by rewrite app_nil_r.
  - destruct (bool_decide (listing_id l ∈ seen)).
    + apply IH.
    + rewrite (IH (acc ++ [l])), (IH [l]). simpl. by rewrite <- app_assoc.
Qed.

Lemma diff_listings_cons l ls seen :
  diff_listings (l :: ls) seen =
  if bool_decide (listing_id l ∈ seen) then diff_listings ls seen
  else (l :: (diff_listings ls ({[listing_id l]} ∪ seen)).1,
        (diff_listings ls ({[listing_id l]} ∪ seen)).2).
Proof.
  unfold diff_listings at 1. simpl.
  destruct (bool_decide (listing_id l ∈ seen)); [done|].
  by rewrite diff_foldl.
Qed.

(** The new listings are listings of the answer whose id was not seen,
    each id once; the seen set gains exactly the ids of the answer,
    which are the ids of the new listings. *)
Lemma diff_listings_spec ls : forall seen,
  let new := (diff_listings ls seen).1 in
  let seen' := (diff_listings ls seen).2 in
  seen' = seen ∪ list_to_set (ids ls) /\
  seen' = seen ∪ list_to_set (ids new) /\
  NoDup (ids new) /\
  (forall id, id ∈ ids new -> (id ∉ seen) /\ (id ∈ ids ls)).
Proof.
  induction ls as [|l ls IH]; intros seen; simpl.
  - unfold diff_listings; simpl. split_and!; [set_solver | set_solver | apply NoDup_nil_2 |].
    intros id Hin. inversion Hin.
  - rewrite diff_listings_cons. case_bool_decide as Hseen.
    + destruct (IH seen) as (Ha & Hb & Hc & Hd).
      split_and!; [set_solver | done | done |].
      intros id Hin. apply Hd in Hin. set_solver.
    + destruct (IH ({[listing_id l]} ∪ seen)) as (Ha & Hb & Hc & Hd). simpl.
      split_and!.
      * rewrite Ha. set_solver.
      * rewrite Hb. set_solver.
      * apply NoDup_cons_2; [|done]. intros Hin. apply Hd in Hin. set_solver.
      * intros id Hin. apply elem_of_cons in Hin as [->|Hin]; [set_solver|].
        apply Hd in Hin. set_solver.
Qed.


(** ** The send loop *)

Lemma send_new_sends w chan name ls :
  sends (send_new w chan name ls).1 = (send_new w chan name ls).1.
Proof.
  induction ls as [|l ls IH]; simpl; [done|].
  destruct (create_listing_embed w l) as [embed|]; [|done].
  destruct (channel_send w chan _ embed); [|done].
  destruct (send_new w chan name ls) as [calls r]. simpl in *. by rewrite IH.
Qed.

(** The calls are the notifications of the first [k] listings, for some
    [k]: the loop stops at the first build or send that raises. *)
Lemma send_new_prefix w chan name ls :
  exists k, (k <= length ls)%nat /\
    Some <$> (send_new w chan name ls).1 = notification w chan name <$> take k ls.
Proof.
  induction ls as [|l ls (k & Hk & IH)]; simpl.
  - by exists 0%nat.
  - destruct (create_listing_embed w l) as [embed|] eqn:He.
    + destruct (channel_send w chan _ embed).
      * destruct (send_new w chan name ls) as [calls r]. exists (S k).
        split; [simpl; lia|]. cbn [fst take] in *. rewrite !fmap_cons, <- IH.
        unfold notification. by rewrite He.
      * exists 1%nat. split; [simpl; lia|]. cbn [fst take]. rewrite !fmap_cons.
        unfold notification. by rewrite He.
    + exists 0%nat. split; [simpl; lia | done].
Qed.

Lemma send_new_healthy w chan name ls :
  healthy w chan name ls ->
  Some <$> (send_new w chan name ls).1 = notification w chan name <$> ls /\
  (send_new w chan name ls).2 = Ok tt.
Proof.
  induction 1 as [|l ls (embed & He & Hs) _ [IH1 IH2]]; [done|].
  cbn [send_new]. rewrite He, Hs. destruct (send_new w chan name ls) as [calls r].
  cbn [fst snd] in *. split; [|done]. rewrite !fmap_cons, <- IH1.
  unfold notification. by rewrite He.
Qed.

(** Counting through the notifications of a list of listings. *)
Lemma notifications_of_listings w chan name id ls calls :
  Some <$> calls = notification w chan name <$> ls ->
  notifications id calls = length (filter (fun l => listing_id l = id) ls).
Proof.
  revert calls. induction ls as [|l ls IH]; intros [|call calls]; simpl; try done.
  intros [= Hcall Hrest]. symmetry in Hcall.
  rewrite (notifies_notification _ _ _ _ _ id Hcall), (IH _ Hrest).
  rewrite filter_cons. case_bool_decide; case_decide; simpl; done.
Qed.

Lemma filter_id_absent id ls :
  id ∉ ids ls -> filter (fun l => listing_id l = id) ls = [].
Proof.
  induction ls as [|l ls IH]; [done|]. simpl. intros Hnot.
  rewrite filter_cons. case_decide as Heq.
  - exfalso. apply Hnot. rewrite <- Heq. set_solver.
  - apply IH. set_solver.
Qed.

Lemma filter_id_NoDup id ls :
  NoDup (ids ls) -> (length (filter (fun l => listing_id l = id) ls) <= 1)%nat.
Proof.
  induction ls as [|l ls IH]; [simpl; lia|].
  intros Hnd. apply NoDup_cons in Hnd as [Hnot Hnd].
  rewrite filter_cons. case_decide as Heq.
  - rewrite filter_id_absent by (by rewrite <- Heq). simpl. lia.
  - by apply IH.
Qed.

Lemma filter_id_present id ls :
  id ∈ ids ls -> (0 < length (filter (fun l => listing_id l = id) ls))%nat.
Proof.
  induction ls as [|l ls IH]; simpl; [intros H; inversion H|].
  intros Hin. rewrite filter_cons. case_decide as Heq; simpl; [lia|].
  apply IH. apply elem_of_cons in Hin as [->|]; done.
Qed.

Lemma ids_take k ls : ids (take k ls) = take k (ids ls).
Proof. unfold ids. by rewrite fmap_take. Qed.

Lemma NoDup_ids_take k ls : NoDup (ids ls) -> NoDup (ids (take k ls)).
Proof.
  intros Hnd. rewrite ids_take. rewrite <- (take_drop k (ids ls)) in Hnd.
  by apply NoDup_app in Hnd as [? _].
Qed.

Lemma elem_of_ids_take k ls id : id ∈ ids (take k ls) -> id ∈ ids ls.
Proof.
  rewrite ids_take. intros Hin. rewrite <- (take_drop k (ids ls)). set_solver.
Qed.

(** The calls of the loop over listings with distinct ids: at most one
    per id, and only for ids of the list. *)
Lemma send_new_notifications w chan name ls id :
  NoDup (ids ls) ->
  (notifications id (send_new w chan name ls).1 <= 1)%nat /\
  ((0 < notifications id (send_new w chan name ls).1)%nat -> id ∈ ids ls).
Proof.
  intros Hnd. destruct (send_new_prefix w chan name ls) as (k & _ & Hk).
  rewrite (notifications_of_listings _ _ _ id _ _ Hk). split.
  - apply filter_id_NoDup. by apply NoDup_ids_take.
  - intros Hpos. destruct (decide (id ∈ ids (take k ls))) as [Hin|Hnot].
    + by apply elem_of_ids_take in Hin.
    + rewrite filter_id_absent in Hpos by done. simpl in Hpos. lia.
Qed.

(** ** One configuration in one cycle *)

Lemma check_config_unfold w chan n name config b :
  exists closing,
    sends closing = [] /\
    check_config w chan n name config b =
    (set_seen_listings
       (diff_listings (answered w n b (params config)).1 (seen_listings b)).2 b,
     (answered w n b (params config)).2 ++
     (send_new w chan name (take 5 (new_listings_of w n config b))).1 ++ closing).
Proof.
  unfold check_config, new_listings_of. rewrite call_fetch_listings_answered.
  unfold answered. destruct (Dict.mem "self" (params config)).
  { eexists. split; last first.
    - cbn. rewrite set_seen_listings_same. reflexivity.
    - done. }
  destruct (fetched w n b (params config)) as [listings fetch_log]. cbn [fst snd].
  destruct (diff_listings listings (seen_listings b)) as [new seen]. cbn [fst snd].
  destruct (send_new w chan name (take 5 new)) as [calls r]. cbn [fst snd].
  eexists. split; [|reflexivity]. by destruct r, new.
Qed.

Lemma check_config_sends w chan n name config b :
  sends (check_config w chan n name config b).2
  = (send_new w chan name (take 5 (new_listings_of w n config b))).1.
Proof.
  destruct (check_config_unfold w chan n name config b) as (closing & Hc & ->).
  cbn [snd]. rewrite !sends_app, answered_silent, Hc, send_new_sends.
  by rewrite app_nil_r.
Qed.

Lemma check_config_seen w chan n name config b :
  seen_listings (check_config w chan n name config b).1
  = (diff_listings (answered w n b (params config)).1 (seen_listings b)).2.
Proof. by destruct (check_config_unfold w chan n name config b) as (closing & _ & ->). Qed.

Lemma check_config_frame w chan n name config b :
  let b' := (check_config w chan n name config b).1 in
  csfloat_api_key b' = csfloat_api_key b /\
  channel_id b' = channel_id b /\
  tracking_configs b' = tracking_configs b.
Proof. by destruct (check_config_unfold w chan n name config b) as (closing & _ & ->). Qed.

Lemma check_config_dedup w chan n name config b :
  dedup_ok (seen_listings b) (seen_listings (check_config w chan n name config b).1)
           (check_config w chan n name config b).2.
Proof.
  rewrite check_config_seen.
  destruct (diff_listings_spec (answered w n b (params config)).1 (seen_listings b))
    as (Ha & Hb & Hc & Hd).
  split; [set_solver|]. intros id.
  rewrite <- notifications_sends, check_config_sends.
  destruct (send_new_notifications w chan name
              (take 5 (new_listings_of w n config b)) id) as [Hle Hpos].
  { by apply NoDup_ids_take. }
  assert (Hnew : (0 < notifications id
                    (send_new w chan name (take 5 (new_listings_of w n config b))).1)%nat ->
                 id ∈ ids (new_listings_of w n config b)).
  { intros Hp. eapply elem_of_ids_take. by apply Hpos. }
  split_and!; [|done|].
  - intros Hin.
    destruct (decide (0 < notifications id
        (send_new w chan name (take 5 (new_listings_of w n config b))).1)%nat) as [Hp|]; [|lia].
    exfalso. by apply (Hd id (Hnew Hp)).
  - intros Hp. rewrite Hb. apply elem_of_union_r, elem_of_list_to_set. by apply Hnew.
Qed.

(** ** A whole cycle, a command, a run *)

Lemma check_configs_dedup w chan configs : forall n b,
  dedup_ok (seen_listings b) (seen_listings (check_configs w chan n configs b).1)
           (check_configs w chan n configs b).2.
Proof.
  induction configs as [|[name config] configs IH]; intros n b; simpl.
  - by apply dedup_ok_silent.
  - pose proof (check_config_dedup w chan n name config b) as H1.
    destruct (check_config w chan n name config b) as [b1 ev1].
    pose proof (IH (S n) b1) as H2.
    destruct (check_configs w chan (S n) configs b1) as [b2 ev2].
    by eapply dedup_ok_compose.
Qed.

Lemma check_listings_dedup w b :
  dedup_ok (seen_listings b) (seen_listings (check_listings w b).1) (check_listings w b).2.
Proof.
  unfold check_listings. destruct (tracking_configs b) as [|c cs].
  - by apply dedup_ok_silent.
  - destruct (get_channel w (channel_id b)).
    + apply check_configs_dedup.
    + by apply dedup_ok_silent.
Qed.

Lemma mark_seen_spec ls : forall seen, mark_seen ls seen = seen ∪ list_to_set (ids ls).
Proof.
  unfold mark_seen. induction ls as [|l ls IH]; intros seen; simpl; [set_solver|].
  rewrite IH. set_solver.
Qed.

Lemma send_in_try_silent w content embed : sends (send_in_try w content embed).1 = [].
Proof. unfold send_in_try. by destruct (ctx_send w content embed). Qed.

(** *** The two parts of [track_items] *)

Lemma track_items_phases w chan name def_index paint_index params b :
  track_items w chan name def_index paint_index params b
  = let r := track_items_begin w chan name def_index paint_index params b in
    match r.2 with
    | None => r.1
    | Some param_dict =>
        ((track_items_resume w name param_dict r.1.1).1,
         r.1.2 ++ (track_items_resume w name param_dict r.1.1).2)
    end.
Proof.
  unfold track_items.
  destruct (track_items_begin w chan name def_index paint_index params b)
    as [[b2 ev] [param_dict|]]; cbn [fst snd]; [|done].
  by destruct (track_items_resume w name param_dict b2).
Qed.

(** The first part either returns at once, with the bot as it was, or
    writes the store and the default channel; it holds the parsed
    dictionary for the fetch exactly when its confirmation is sent. *)
Lemma track_items_begin_spec w chan name def_index paint_index params b :
  let r := track_items_begin w chan name def_index paint_index params b in
  match parse_params (track_tokens params) (default_params def_index paint_index) with
  | InvalidSort value =>
      r = (b, (send_in_try w (Some (invalid_sort_text value)) None).1, None)
  | Params param_dict =>
      let configs :=
        Dict.set name {| params := param_dict; channel := chan |} (tracking_configs b) in
      tracking_configs r.1.1 = configs /\
      channel_id r.1.1 = (if (length configs =? 1)%nat then chan else channel_id b) /\
      csfloat_api_key r.1.1 = csfloat_api_key b /\
      seen_listings r.1.1 = seen_listings b /\
      r.1.2 = (send_in_try w None (Some (tracking_started name param_dict None))).1 /\
      r.2 = match ctx_send w None (Some (tracking_started name param_dict None)) with
            | Ok _ => Some param_dict
            | Raise _ => None
            end
  end.
Proof.
  unfold track_items_begin.
  destruct (parse_params _ _) as [param_dict|value]; [|done].
  cbn [tracking_configs set_tracking_configs]. unfold send_in_try.
  destruct (ctx_send w None _) as [[]|e]; cbn [fst snd]; split_and!; by try case_match.
Qed.

Lemma track_items_begin_dedup w chan name def_index paint_index params b :
  let r := track_items_begin w chan name def_index paint_index params b in
  dedup_ok (seen_listings b) (seen_listings r.1.1) r.1.2.
Proof.
  pose proof (track_items_begin_spec w chan name def_index paint_index params b) as H.
  cbv zeta in *. destruct (parse_params _ _) as [param_dict|value].
  - destruct H as (_ & _ & _ & Hseen & Hev & _). rewrite Hseen, Hev.
    apply dedup_ok_silent; [done | apply send_in_try_silent].
  - rewrite H. cbn [fst snd]. apply dedup_ok_silent; [done | apply send_in_try_silent].
Qed.

(** The second part changes the seen set only: it adds the ids of the
    answer of the initial fetch. *)
Lemma track_items_resume_spec w name param_dict b :
  let r := track_items_resume w name param_dict b in
  seen_listings r.1 = seen_listings b ∪ list_to_set (ids (answered w 0 b param_dict).1) /\
  tracking_configs r.1 = tracking_configs b /\
  channel_id r.1 = channel_id b /\
  csfloat_api_key r.1 = csfloat_api_key b /\
  sends r.2 = [].
Proof.
  unfold track_items_resume. rewrite call_fetch_listings_answered.
  pose proof (answered_silent w 0 b param_dict) as Hf. unfold answered in *.
  destruct (Dict.mem "self" param_dict).
  { cbn [fst snd]. split_and!; [set_solver | done..]. }
  destruct (fetched w 0 b param_dict) as [[|l ls] fetch_log]; cbn [fst snd] in *.
  - split_and!; [set_solver | done..].
  - split_and!; [by rewrite mark_seen_spec | done.. |].
    by rewrite sends_app, Hf, send_in_try_silent.
Qed.

Lemma track_items_resume_dedup w name param_dict b :
  dedup_ok (seen_listings b) (seen_listings (track_items_resume w name param_dict b).1)
           (track_items_resume w name param_dict b).2.
Proof.
  destruct (track_items_resume_spec w name param_dict b) as (Hseen & _ & _ & _ & Hs).
  apply dedup_ok_silent; [|done]. rewrite Hseen. set_solver.
Qed.

Lemma track_items_dedup w chan name def_index paint_index params b :
  dedup_ok (seen_listings b)
    (seen_listings (track_items w chan name def_index paint_index params b).1)
    (track_items w chan name def_index paint_index params b).2.
Proof.
  rewrite track_items_phases. cbv zeta.
  pose proof (track_items_begin_dedup w chan name def_index paint_index params b) as H1.
  cbv zeta in H1.
  destruct (track_items_begin w chan name def_index paint_index params b)
    as [[b2 ev] [param_dict|]]; cbn [fst snd] in *; [|done].
  eapply dedup_ok_compose; [exact H1 | apply track_items_resume_dedup].
Qed.

Lemma step_dedup w op b :
  dedup_ok (seen_listings b) (seen_listings (step w op b).1) (step w op b).2.
Proof.
  destruct op as [|chan name def_index paint_index params
                  |chan name def_index paint_index params|name param_dict
                  |name| |def_index paint_index limit sort_by];
    cbn [step].
  - apply check_listings_dedup.
  - apply track_items_dedup.
  - apply track_items_begin_dedup.
  - apply track_items_resume_dedup.
  - unfold untrack_items. case_match; by apply dedup_ok_silent.
  - unfold list_tracking. case_match; by apply dedup_ok_silent.
  - unfold test_fetch. destruct (SortOption_lookup sort_by); [|by apply dedup_ok_silent].
    set (ps := Dict.set "sort_by" _ _).
    rewrite call_fetch_listings_answered.
    destruct (Dict.mem "self" ps); [by apply dedup_ok_silent|].
    pose proof (answered_silent w 0 b ps) as Hf.
    destruct (answered w 0 b ps) as [[|l ls] fetch_log]; cbn [fst snd] in *.
    + apply dedup_ok_silent; [done|]. by rewrite sends_app, Hf.
    + apply dedup_ok_silent; [done|]. rewrite sends_app, Hf. simpl.
      by destruct (ctx_send w _ None), (create_listing_embed w l).
Qed.

Lemma run_dedup ops : forall b,
  dedup_ok (seen_listings b) (seen_listings (run ops b).1) (run ops b).2.
Proof.
  induction ops as [|[w op] ops IH]; intros b; simpl.
  - by apply dedup_ok_silent.
  - pose proof (step_dedup w op b) as H1. destruct (step w op b) as [b1 ev1].
    pose proof (IH b1) as H2. destruct (run ops b1) as [b2 ev2].
    by eapply dedup_ok_compose.
Qed.

(** ** The seen set *)

(** C9. The Seen-Listing Set grows monotonically: every handler of the
    program (a polling cycle, track, untrack, list_tracking, test) keeps
    every id that was in the set, and so does every run of handlers over
    the lifetime of the process. *)
Theorem seen_listings_monotone :
  (forall w op b, seen_listings b ⊆ seen_listings (step w op b).1) /\
  (forall ops b, seen_listings b ⊆ seen_listings (run ops b).1).
Proof. split; intros; [apply step_dedup | apply run_dedup]. Qed.

(** ** Deduplication *)

Lemma elem_of_ids_sample names id : id ∈ ids (sample_listings names) <-> id ∈ names.
Proof.
  unfold ids, sample_listings. rewrite <- list_fmap_compose.
  induction names as [|a names IH]; [done|]. rewrite fmap_cons, !elem_of_cons. by rewrite IH.
Qed.

(** C1, as stated, fails.  After [!track X 7 282], two consecutive
    cycles both get the six listings L1..L6; L6 is returned in both and
    is never notified, because it is the sixth new listing of its
    cycle. *)
Lemma dedup_exactly_once_fails :
  let w := world_of six_listings in
  let ops1 := [(world_of [], Track 1 "X" 7 282 EmptyString)] in
  let b1 := (run ops1 (init None 1)).1 in
  let b2 := (check_listings w b1).1 in
  returned w b1 "L6" /\ returned w b2 "L6" /\
  notifications "L6" (run (ops1 ++ [(w, Tick); (w, Tick)]) (init None 1)).2 = 0%nat /\
  notifications "L1" (run (ops1 ++ [(w, Tick); (w, Tick)]) (init None 1)).2 = 1%nat.
Proof.
  cbv zeta. split_and!.
  - split; [done|]. eexists 0%nat, "X", _. split; [vm_compute; reflexivity|].
    apply elem_of_ids_sample. set_solver.
  - split; [done|]. eexists 0%nat, "X", _. split; [vm_compute; reflexivity|].
    apply elem_of_ids_sample. set_solver.
  - vm_compute. reflexivity.
  - vm_compute. reflexivity.
Qed.

(** C1, amended.  Over the whole lifetime of the process no listing id
    is notified more than once, and an id that is in the seen set is not
    notified at all.  In the cycle that detects an id it is added to the
    seen set whatever becomes of the dispatch; it is notified in that
    cycle only when it is among the first five new listings of its
    configuration and was not seen before, and then exactly once when
    the transport takes the notifications of those five. *)
Theorem dedup_at_most_once :
  (forall ops b id, (notifications id (run ops b).2 <= 1)%nat) /\
  (forall ops b id, id ∈ seen_listings b -> notifications id (run ops b).2 = 0%nat) /\
  (forall w chan n name config b id,
     id ∈ ids (answered w n b (params config)).1 ->
     id ∈ seen_listings (check_config w chan n name config b).1) /\
  (forall w chan n name config b id,
     (0 < notifications id (check_config w chan n name config b).2)%nat ->
     id ∈ ids (take 5 (new_listings_of w n config b)) /\ id ∉ seen_listings b) /\
  (forall w chan n name config b id,
     healthy w chan name (take 5 (new_listings_of w n config b)) ->
     id ∈ ids (take 5 (new_listings_of w n config b)) ->
     notifications id (check_config w chan n name config b).2 = 1%nat).
Proof.
  split_and!.
  - intros ops b id. by apply run_dedup.
  - intros ops b id Hin. by apply run_dedup.
  - intros w chan n name config b id Hin. rewrite check_config_seen.
    destruct (diff_listings_spec (answered w n b (params config)).1 (seen_listings b))
      as (-> & _). apply elem_of_union_r, elem_of_list_to_set, Hin.
  - intros w chan n name config b id Hpos.
    rewrite <- notifications_sends, check_config_sends in Hpos.
    destruct (diff_listings_spec (answered w n b (params config)).1 (seen_listings b))
      as (_ & _ & Hnd & Hnew).
    destruct (send_new_notifications w chan name
                (take 5 (new_listings_of w n config b)) id) as [_ Hin].
    { by apply NoDup_ids_take. }
    split; [by apply Hin|]. apply Hnew. eapply elem_of_ids_take. by apply Hin.
  - intros w chan n name config b id Hh Hin.
    rewrite <- notifications_sends, check_config_sends.
    destruct (send_new_healthy w chan name _ Hh) as [Hcalls _].
    rewrite (notifications_of_listings _ _ _ id _ _ Hcalls).
    destruct (diff_listings_spec (answered w n b (params config)).1 (seen_listings b))
      as (_ & _ & Hnd & _).
    pose proof (filter_id_NoDup id (take 5 (new_listings_of w n config b))
                  (NoDup_ids_take 5 _ Hnd)).
    pose proof (filter_id_present id _ Hin). lia.
Qed.

Lemma dedup_at_most_once_witness :
  "L1" ∈ seen_listings (check_listings (world_of six_listings) tracking_X).1 /\
  notifications "L1"
    (run [(world_of six_listings, Tick)]
         (check_listings (world_of six_listings) tracking_X).1).2 = 0%nat.
Proof.
  assert (H : "L1" ∈ seen_listings (check_listings (world_of six_listings) tracking_X).1).
  { apply (proj1 (proj2 (proj2 dedup_at_most_once))
             (world_of six_listings) 1 0%nat "X"
             {| params := default_params 7 282; channel := 1 |} tracking_X "L1").
    apply elem_of_ids_sample. set_solver. }
  split; [exact H|].
  exact (proj1 (proj2 dedup_at_most_once) _ _ _ H).
Defined.

(** ** The cap of five per configuration and cycle *)




(** ** The store of tracking configurations *)

Lemma Dict_get_set {V : Type} (k : string) (v : V) d : Dict.get k (Dict.set k v d) = Some v.
Proof.
  induction d as [|[k' v'] d IH]; simpl.
  - by rewrite String.eqb_refl.
  - destruct (String.eqb k' k) eqn:E; simpl; rewrite E; [|done].
    done.
Qed.

Lemma Dict_set_length_1 {V : Type} (k : string) (v : V) d :
  length (Dict.set k v d) = 1%nat <-> d = [] \/ exists v', d = [(k, v')].
Proof.
  destruct d as [|[k' v'] d]; simpl; [by split; auto|].
  destruct (String.eqb_spec k' k) as [->|Hne]; simpl.
  - split.
    + intros [= Hlen]. destruct d; [|done]. right. by exists v'.
    + intros [|[v'' [= -> ->]]]; done.
  - split.
    + destruct d as [|[k2 v2] d]; simpl; [by intros [=]|].
      destruct (String.eqb k2 k); simpl; by intros [=].
    + intros [|[v'' [= ? ?]]]; done.
Qed.

(** What a [track] whose parameters parse does to the store, to the
    default channel and to the key, whatever the transport does. *)
Lemma track_items_store w chan name def_index paint_index params b param_dict :
  parse_params (track_tokens params) (default_params def_index paint_index)
  = Params param_dict ->
  let b' := (track_items w chan name def_index paint_index params b).1 in
  let configs :=
    Dict.set name {| params := param_dict; channel := chan |} (tracking_configs b) in
  tracking_configs b' = configs /\
  channel_id b' = (if (length configs =? 1)%nat then chan else channel_id b) /\
  csfloat_api_key b' = csfloat_api_key b.
Proof.
  intros Hparse. rewrite track_items_phases. cbv zeta.
  pose proof (track_items_begin_spec w chan name def_index paint_index params b) as H.
  cbv zeta in H. rewrite Hparse in H. destruct H as (Hc & Hch & Hk & _).
  destruct (track_items_begin w chan name def_index paint_index params b).2 as [pd|];
    [|done].
  destruct (track_items_resume_spec w name pd
              (track_items_begin w chan name def_index paint_index params b).1.1)
    as (_ & Hc' & Hch' & Hk' & _).
  cbn [fst]. split_and!; congruence.
Qed.





(** C8, as stated, fails.  The store holds the single configuration X,
    added from channel 1; adding X again from channel 2 is a later add
    that overwrites an existing name, and it moves the default
    destination to channel 2. *)
Lemma later_add_changes_default_destination :
  let b1 := (track_items (world_of []) 1 "X" 7 282 EmptyString (init None 1)).1 in
  let b2 := (track_items (world_of []) 2 "X" 7 282 EmptyString b1).1 in
  length (tracking_configs b1) = 1%nat /\ channel_id b1 = 1 /\
  length (tracking_configs b2) = 1%nat /\ channel_id b2 = 2.
Proof. vm_compute. done. Qed.

(** C8, amended.  An add sets the default destination to the adding
    channel exactly when the store holds a single entry after it: when
    the store was empty, or held only the entry of the name being added
    (which the add overwrites).  Every other add leaves the default
    destination unchanged. *)
Theorem track_default_destination
  w chan name def_index paint_index params b param_dict :
  parse_params (track_tokens params) (default_params def_index paint_index)
  = Params param_dict ->
  let b' := (track_items w chan name def_index paint_index params b).1 in
  (tracking_configs b = [] -> channel_id b' = chan) /\
  (forall config, tracking_configs b = [(name, config)] -> channel_id b' = chan) /\
  (tracking_configs b <> [] ->
   (forall config, tracking_configs b <> [(name, config)]) ->
   channel_id b' = channel_id b).
Proof.
  intros Hparse b'. subst b'.
  destruct (track_items_store w chan name _ _ _ b _ Hparse) as (_ & -> & _).
  pose proof (Dict_set_length_1 name {| params := param_dict; channel := chan |}
                (tracking_configs b)) as Hlen.
  split_and!.
  - intros Hempty. rewrite (proj2 (Nat.eqb_eq _ _)); [done|]. apply Hlen. by left.
  - intros config Hone. rewrite (proj2 (Nat.eqb_eq _ _)); [done|]. apply Hlen. right. by exists config.
  - intros Hne Hother. destruct (Nat.eqb_spec (length (Dict.set name
        {| params := param_dict; channel := chan |} (tracking_configs b))) 1) as [H1|]; [|done].
    apply Hlen in H1 as [?|[config ?]]; [done|]. by destruct (Hother config).
Qed.

Lemma track_default_destination_witness :
  channel_id (track_items (world_of []) 7 "X" 7 282 EmptyString (init None 1)).1 = 7 /\
  channel_id (track_items (world_of []) 2 "Y" 7 282 EmptyString tracking_X).1 = 1.
Proof.
  split.
  - apply (proj1 (track_default_destination (world_of []) 7 "X" 7 282 EmptyString
                    (init None 1) (default_params 7 282) eq_refl)).
    reflexivity.
  - apply (proj2 (proj2 (track_default_destination (world_of []) 2 "Y" 7 282 EmptyString
                           tracking_X (default_params 7 282) eq_refl))).
    + vm_compute. discriminate.
    + intros config. vm_compute. discriminate.
Defined.

(** ** Validation of the sort option *)

Lemma split_once_spec c s k v :
  PyStr.split_once c s = Some (k, v) -> s = k +:+ String c v.
Proof.
  revert k. induction s as [|a s IH]; intros k; simpl; [done|].
  destruct (Ascii.eqb_spec a c) as [->|Hne].
  - by intros [= <- <-].
  - destruct (PyStr.split_once c s) as [[k' v']|]; [|done].
    intros [= <- <-]. simpl. by rewrite (IH k' eq_refl).
Qed.

Lemma split_once_sort_by value :
  PyStr.split_once "=" ("sort_by=" +:+ value) = Some ("sort_by", value).
Proof. reflexivity. Qed.

Lemma SortOption_lookup_None value :
  SortOption_lookup value = None <-> value ∉ valid_options.
Proof.
  unfold SortOption_lookup, valid_options. split.
  - intros Hnone Hin. apply list_elem_of_fmap in Hin as (o & -> & Hin).
    apply list_elem_of_In in Hin.
    pose proof (find_none _ _ Hnone o Hin) as Hf. simpl in Hf.
    by rewrite String.eqb_refl in Hf.
  - intros Hnot. destruct (find _ _) as [o|] eqn:Hfind; [|done].
    exfalso. apply Hnot. apply find_some in Hfind as [Hin Heq].
    apply String.eqb_eq in Heq. rewrite <- Heq.
    apply list_elem_of_fmap. exists o. split; [done|]. by apply list_elem_of_In.
Qed.

(** The loop over the tokens stops at the first [sort_by] token whose
    value is not a sort option, whatever comes before it. *)
Lemma parse_params_invalid tokens : forall param_dict value,
  ("sort_by=" +:+ value) ∈ tokens -> value ∉ valid_options ->
  exists offending,
    parse_params tokens param_dict = InvalidSort offending /\
    ("sort_by=" +:+ offending) ∈ tokens /\ offending ∉ valid_options.
Proof.
  induction tokens as [|param tokens IH]; intros param_dict value Hin Hbad.
  - inversion Hin.
  - assert (Hrest : forall pd, param <> "sort_by=" +:+ value ->
              exists offending,
                parse_params tokens pd = InvalidSort offending /\
                ("sort_by=" +:+ offending) ∈ param :: tokens /\ offending ∉ valid_options).
    { intros pd Hne. apply elem_of_cons in Hin as [Heq|Hin]; [by destruct Hne|].
      destruct (IH pd value Hin Hbad) as (off & Hp & Hoff & Hv).
      exists off. split_and!; [done | by apply elem_of_cons; right | done]. }
    cbn [parse_params].
    destruct (PyStr.split_once "=" param) as [[key val]|] eqn:Hsplit.
    + destruct (String.eqb_spec key "sort_by") as [->|Hkey].
      * destruct (SortOption_lookup val) as [o|] eqn:Hlook.
        -- apply Hrest. intros ->. rewrite split_once_sort_by in Hsplit.
           injection Hsplit as <-. apply SortOption_lookup_None in Hbad. congruence.
        -- exists val. split_and!; [done| |by apply SortOption_lookup_None].
           apply split_once_spec in Hsplit as ->. apply elem_of_cons. by left.
      * apply Hrest. intros ->. rewrite split_once_sort_by in Hsplit. congruence.
    + apply Hrest. intros ->. by rewrite split_once_sort_by in Hsplit.
Qed.

Lemma track_tokens_split params : track_tokens params = PyStr.split_ws params.
Proof. by destruct params. Qed.

(** C5. A [track] whose extra parameters hold a [sort_by] value outside
    the sort options is rejected: the first thing the handler sends is
    the error that names the first offending value and lists the valid
    options, and the bot (store, default channel, seen set) is left as it
    was, so that [list_tracking] shows what it showed before. *)
Theorem track_invalid_sort_rejected
  w chan name def_index paint_index params b value :
  ("sort_by=" +:+ value) ∈ PyStr.split_ws params ->
  value ∉ valid_options ->
  exists offending,
    ("sort_by=" +:+ offending) ∈ PyStr.split_ws params /\
    (offending ∉ valid_options) /\
    (track_items w chan name def_index paint_index params b).1 = b /\
    head (track_items w chan name def_index paint_index params b).2
    = Some (CtxSend (Some ("❌ Invalid sort option '" +:+ offending +:+
                           "'. Valid options: best_deal, highest_discount, " +:+
                           "lowest_price, highest_price, most_recent, " +:+
                           "lowest_float, highest_float, created_at")) None) /\
    (forall w', list_tracking w' (track_items w chan name def_index paint_index params b).1
                = list_tracking w' b).
Proof.
  intros Hin Hbad.
  destruct (parse_params_invalid (track_tokens params)
              (default_params def_index paint_index) value) as (off & Hparse & Hoff & Hv).
  { by rewrite track_tokens_split. }
  { done. }
  rewrite track_tokens_split in Hoff.
  exists off. unfold track_items, track_items_begin. rewrite Hparse. cbn [fst snd].
  split_and!; [done|done|done| |done].
  unfold send_in_try. by destruct (ctx_send w _ None).
Qed.

Lemma track_invalid_sort_rejected_witness :
  exists offending,
    ("sort_by=" +:+ offending) ∈ PyStr.split_ws "max_float=0.15 sort_by=bogus" /\
    (offending ∉ valid_options) /\
    (track_items (world_of []) 1 "X" 7 282 "max_float=0.15 sort_by=bogus" tracking_X).1
    = tracking_X /\
    head (track_items (world_of []) 1 "X" 7 282 "max_float=0.15 sort_by=bogus" tracking_X).2
    = Some (CtxSend (Some ("❌ Invalid sort option '" +:+ offending +:+
                           "'. Valid options: best_deal, highest_discount, " +:+
                           "lowest_price, highest_price, most_recent, " +:+
                           "lowest_float, highest_float, created_at")) None) /\
    (forall w', list_tracking w'
                  (track_items (world_of []) 1 "X" 7 282 "max_float=0.15 sort_by=bogus"
                     tracking_X).1
                = list_tracking w' tracking_X).
Proof.
  apply (track_invalid_sort_rejected (world_of []) 1 "X" 7 282
           "max_float=0.15 sort_by=bogus" tracking_X "bogus").
  - vm_compute. set_solver.
  - vm_compute. set_solver.
Defined.

(** ** The fetch client *)

(** C6, as stated, fails.  [!track X 7 282 self=1] stores the parameter
    [self] with the others.  The call [fetch_listings( **params )] of the
    next polling cycle then raises [TypeError] to the cycle, which
    catches and logs it; no request is made and nothing is fetched for
    X. *)
Lemma fetch_listings_call_raises :
  let b := (track_items (world_of []) 1 "X" 7 282 "self=1" (init None 1)).1 in
  let ps := default_params 7 282 ++ [("self", PInt 1)] in
  params <$> Dict.get "X" (tracking_configs b) = Some ps /\
  call_fetch_listings (world_of six_listings) 0 b ps
  = Raise (TypeError "CSFloatBot.fetch_listings() got multiple values for argument 'self'") /\
  (check_listings (world_of six_listings) b).2
  = [Log ERROR ("Error checking listings for X: " +:+
                "CSFloatBot.fetch_listings() got multiple values for argument 'self'")].
Proof. cbv zeta. split_and!; vm_compute; reflexivity. Qed.

(** C6, amended.  The body of the fetch client never raises: it always
    returns a list of listings.  When the request or the decoding of the
    body raises, when the body is not a JSON object, or when the status
    is not 200, it logs an error and returns the empty list; on status
    200 it returns the [data] of the decoded object, and the empty list
    when the object has no [data].  A call [fetch_listings( **ps )]
    returns what the body returns when no key of [ps] is [self], and
    raises [TypeError] to its caller, before the body runs, when one
    is. *)
Theorem fetch_listings_raises_only_at_call w n b ps :
  (exists listings log,
     fetch_listings w n b ps = Ok (listings, log) /\
     match http_get w n {| req_url := base_url; req_params := ps;
                           req_headers := fetch_headers b |} with
     | Raise e =>
         listings = [] /\ log = [Log ERROR ("Error fetching listings: " +:+ exn_text e)]
     | Ok response =>
         if status response =? 200 then
           match json response with
           | Ok (JsonObject (Some data)) => listings = data /\ log = []
           | Ok (JsonObject None) => listings = [] /\ log = []
           | Ok (JsonOther type_name) =>
               listings = [] /\
               log = [Log ERROR ("Error fetching listings: '" +:+ type_name +:+
                                 "' object has no attribute 'get'")]
           | Raise e =>
               listings = [] /\ log = [Log ERROR ("Error fetching listings: " +:+ exn_text e)]
           end
         else
           listings = [] /\
           log = [Log ERROR ("API request failed with status " +:+ PyStr.of_Z (status response));
                  Log ERROR ("Response: " +:+ response_text response)]
     end) /\
  (Dict.mem "self" ps = false ->
   call_fetch_listings w n b ps = fetch_listings w n b ps) /\
  (Dict.mem "self" ps = true ->
   call_fetch_listings w n b ps
   = Raise (TypeError "CSFloatBot.fetch_listings() got multiple values for argument 'self'")).
Proof.
  split_and!.
  - unfold fetch_listings, fetch_try, bind.
    destruct (http_get w n _) as [response|e]; [|by eexists _, _].
    destruct (status response =? 200); [|by eexists _, _].
    destruct (json response) as [[[data|]|type_name]|e]; by eexists _, _.
  - intros Hself. unfold call_fetch_listings. by rewrite Hself.
  - intros Hself. unfold call_fetch_listings. by rewrite Hself.
Qed.

Lemma fetch_listings_raises_only_at_call_witness :
  call_fetch_listings (world_of six_listings) 0 tracking_X (default_params 7 282)
  = fetch_listings (world_of six_listings) 0 tracking_X (default_params 7 282) /\
  call_fetch_listings (world_of six_listings) 0 tracking_X
    (default_params 7 282 ++ [("self", PInt 1)])
  = Raise (TypeError "CSFloatBot.fetch_listings() got multiple values for argument 'self'").
Proof.
  split.
  - apply (proj1 (proj2 (fetch_listings_raises_only_at_call (world_of six_listings) 0
                           tracking_X (default_params 7 282)))).
    reflexivity.
  - apply (proj2 (proj2 (fetch_listings_raises_only_at_call (world_of six_listings) 0
                           tracking_X (default_params 7 282 ++ [("self", PInt 1)])))).
    reflexivity.
Defined.

(** ** Round trip through the store *)

Lemma Dict_set_elem {V : Type} (k : string) (v : V) d : (k, v) ∈ Dict.set k v d.
Proof.
  induction d as [|[k' v'] d IH]; simpl; [set_solver|].
  destruct (String.eqb_spec k' k) as [->|]; set_solver.
Qed.

Lemma Dict_filter_absent {V : Type} (k : string) (d : list (string * V)) :
  k ∉ d.*1 -> List.filter (fun kv => String.eqb kv.1 k) d = [].
Proof.
  induction d as [|[k' v'] d IH]; simpl; [done|]. intros Hnot.
  destruct (String.eqb_spec k' k) as [->|]; [set_solver|]. apply IH. set_solver.
Qed.

Lemma Dict_set_filter {V : Type} (k : string) (v : V) d :
  NoDup d.*1 -> List.filter (fun kv => String.eqb kv.1 k) (Dict.set k v d) = [(k, v)].
Proof.
  induction d as [|[k' v'] d IH]; simpl.
  - by rewrite String.eqb_refl.
  - intros Hnd. apply NoDup_cons in Hnd as [Hnot Hnd].
    destruct (String.eqb_spec k' k) as [->|Hne]; simpl.
    + rewrite String.eqb_refl. by rewrite Dict_filter_absent.
    + destruct (String.eqb_spec k' k); [done|]. by apply IH.
Qed.

Lemma tracking_embed_named name configs :
  fields_named name (tracking_embed configs)
  = map (fun nc => add_field nc.1 ("```" +:+ params_str (params nc.2) +:+ "```") false)
        (List.filter (fun nc => String.eqb nc.1 name) configs).
Proof.
  unfold fields_named, tracking_embed. cbn [embed_fields].
  induction configs as [|[k c] configs IH]; simpl; [done|].
  destruct (String.eqb k name); simpl; by rewrite IH.
Qed.

Lemma parse_max_float :
  parse_params (track_tokens "max_float=0.15") (default_params 7 282)
  = Params [("def_index", PInt 7); ("paint_index", PInt 282); ("limit", PInt 20);
            ("sort_by", PStr "best_deal");
            ("max_float", PFloat (S754_finite false 5404319552844595 (-55)))].
Proof. vm_compute. reflexivity. Qed.

(** C7. After [track("X", 7, 282, "max_float=0.15")] the store holds for
    X exactly the parameters def_index = 7, paint_index = 282,
    limit = 20, sort_by = best_deal and max_float = the float 0.15, and
    [list_tracking] sends one embed that shows them in a field named X;
    with distinct names in the store, that is the only field named X. *)
Theorem track_then_list_round_trip w w' chan b :
  let b' := (track_items w chan "X" 7 282 "max_float=0.15" b).1 in
  let shown :=
    add_field "X"
      ("```def_index: 7" +:+ PyStr.nl +:+ "paint_index: 282" +:+ PyStr.nl +:+
       "limit: 20" +:+ PyStr.nl +:+ "sort_by: best_deal" +:+ PyStr.nl +:+
       "max_float: 0.15```") false in
  params <$> Dict.get "X" (tracking_configs b')
  = Some [("def_index", PInt 7); ("paint_index", PInt 282); ("limit", PInt 20);
          ("sort_by", PStr "best_deal");
          ("max_float", PFloat (S754_finite false 5404319552844595 (-55)))] /\
  PyFloat.parse_float "0.15" = Some (S754_finite false 5404319552844595 (-55)) /\
  exists embed,
    list_tracking w' b' = (b', [CtxSend None (Some embed)]) /\
    shown ∈ embed_fields embed /\
    (NoDup (tracking_configs b).*1 -> fields_named "X" embed = [shown]).
Proof.
  intros b' shown.
  destruct (track_items_store w chan "X" 7 282 "max_float=0.15" b _ parse_max_float)
    as (Hconfigs & _).
  fold b' in Hconfigs. set (config := {| params := _; channel := chan |}) in Hconfigs.
  assert (Hshown : add_field "X" ("```" +:+ params_str (params config) +:+ "```") false
                   = shown) by (vm_compute; reflexivity).
  split_and!.
  - rewrite Hconfigs, Dict_get_set. done.
  - vm_compute. reflexivity.
  - exists (tracking_embed (tracking_configs b')). split_and!.
    + unfold list_tracking. rewrite Hconfigs.
      pose proof (Dict_set_elem "X" config (tracking_configs b)) as Hin.
      destruct (Dict.set "X" config (tracking_configs b)); [inversion Hin | done].
    + rewrite Hconfigs. cbn [tracking_embed embed_fields]. rewrite <- Hshown.
      apply (list_elem_of_fmap_2
               (fun nc : string * Config =>
                  add_field nc.1 ("```" +:+ params_str (params nc.2) +:+ "```") false)
               _ ("X", config)).
      apply Dict_set_elem.
    + intros Hnd. rewrite tracking_embed_named, Hconfigs, Dict_set_filter by done.
      simpl. by rewrite <- Hshown.
Qed.

Lemma track_then_list_round_trip_witness :
  fields_named "X"
    (tracking_embed
       (tracking_configs (track_items (world_of []) 1 "X" 7 282 "max_float=0.15"
                            (init None 1)).1))
  = [add_field "X"
       ("```def_index: 7" +:+ PyStr.nl +:+ "paint_index: 282" +:+ PyStr.nl +:+
        "limit: 20" +:+ PyStr.nl +:+ "sort_by: best_deal" +:+ PyStr.nl +:+
        "max_float: 0.15```") false].
Proof.
  destruct (track_then_list_round_trip (world_of []) (world_of []) 1 (init None 1))
    as (_ & _ & embed & Hlist & _ & Hnamed).
  replace (tracking_embed _) with embed.
  - apply Hnamed. apply NoDup_nil_2.
  - vm_compute in Hlist. injection Hlist as <-. vm_compute. reflexivity.
Defined.

(** ** The seller's display name *)

(** C3. What the builder shows as the seller.  A non-empty username is
    used; an empty or null username with a non-empty obfuscated id gives
    "User ", its first 8 characters and "..."; a seller without a
    [username] key shows "Anonymous" whether or not it has an obfuscated
    id, and an empty username without an obfuscated id shows the empty
    name.  For the seller with obfuscated id 1234567890abcdef and no
    username the field reads "Anonymous", not "User 12345678...". *)
Theorem seller_name_chain :
  (forall c u oid,
     seller_name {| username := Present (String c u); obfuscated_id := oid |}
     = Some (String c u)) /\
  (forall c o,
     seller_name {| username := Present EmptyString; obfuscated_id := Some (String c o) |}
     = Some ("User " +:+ PyStr.take 8 (String c o) +:+ "...") /\
     seller_name {| username := Null; obfuscated_id := Some (String c o) |}
     = Some ("User " +:+ PyStr.take 8 (String c o) +:+ "...")) /\
  (forall oid, seller_name {| username := Absent; obfuscated_id := oid |} = Some "Anonymous") /\
  seller_name {| username := Present EmptyString; obfuscated_id := None |} = Some EmptyString /\
  seller_name obfuscated_seller = Some "Anonymous" /\
  fields_named "👤 Seller"
    (match create_listing_embed (world_of []) (sample_listing "S" obfuscated_seller 9000 None) with
     | Ok embed => embed
     | Raise _ => tracking_embed []
     end)
  = [add_field "👤 Seller" "Anonymous" true].
Proof.
  split_and!.
  - intros c u [[|c' o]|]; reflexivity.
  - intros c o. split; reflexivity.
  - intros [[|c o]|]; reflexivity.
  - reflexivity.
  - reflexivity.
  - vm_compute. reflexivity.
Qed.

(** ** Divergence and discount *)

Lemma special_field_name it :
  field_name (special_field it) = "📊 Rarity" \/ field_name (special_field it) = "✨ Special".
Proof.
  unfold special_field.
  destruct (is_stattrak it) as [[|]|], (is_souvenir it) as [[|]|]; simpl; auto.
Qed.

(** The fields that are always there carry neither a divergence nor a
    discount name. *)
Lemma special_field_plain it :
  is_divergence (special_field it) = false /\ is_discount (special_field it) = false.
Proof.
  unfold is_divergence, is_discount.
  destruct (special_field_name it) as [-> | ->]; split; reflexivity.
Qed.

Lemma sticker_fields_plain it :
  List.filter is_divergence (sticker_fields it) = [] /\
  List.filter is_discount (sticker_fields it) = [].
Proof. unfold sticker_fields. destruct (stickers it) as [[|s l]|]; split; reflexivity. Qed.

Lemma watcher_fields_plain l watch :
  watcher_fields l = Ok watch ->
  List.filter is_divergence watch = [] /\ List.filter is_discount watch = [].
Proof.
  unfold watcher_fields. destruct (watchers l) as [| |n]; [|done|]; intros [= <-];
    [done|]. destruct (0 <? n); split; reflexivity.
Qed.

Lemma description_fields_plain l :
  List.filter is_divergence (description_fields l) = [] /\
  List.filter is_discount (description_fields l) = [].
Proof.
  unfold description_fields. destruct (description l) as [d|]; [|by split].
  destruct (PyStr.truthy d); split; reflexivity.
Qed.

(** The price fields of an embed are those of its reference part. *)
Lemma create_listing_embed_price_fields w l price_usd ref watch :
  fromisoformat w (timestamp_text l) = Ok tt ->
  PyFloat.int_truediv (price l) 100 = Ok price_usd ->
  reference_fields price_usd (reference l) = Ok ref ->
  watcher_fields l = Ok watch ->
  exists embed,
    create_listing_embed w l = Ok embed /\
    divergence_fields embed = List.filter is_divergence ref /\
    discount_fields embed = List.filter is_discount ref.
Proof.
  intros Hts Hprice Href Hwatch. unfold create_listing_embed, bind.
  rewrite Hts, Hprice, Href, Hwatch.
  eexists. split; [reflexivity|].
  unfold divergence_fields, discount_fields. cbn [embed_fields].
  destruct (special_field_plain (item l)) as [Hs1 Hs2].
  destruct (sticker_fields_plain (item l)) as [Ht1 Ht2].
  destruct (watcher_fields_plain l watch Hwatch) as [Hw1 Hw2].
  destruct (description_fields_plain l) as [Hd1 Hd2].
  rewrite !List.filter_app, Ht1, Ht2, Hw1, Hw2, Hd1, Hd2, !app_nil_r.
  cbn [List.filter app]. rewrite Hs1, Hs2. split; reflexivity.
Qed.

Lemma watcher_fields_returns l :
  watchers l <> Null -> exists watch, watcher_fields l = Ok watch.
Proof. unfold watcher_fields. destruct (watchers l); [by eexists | done | by eexists]. Qed.

Lemma gt0_not_zero x : PyFloat.gt0 x = true -> PyFloat.is_zero x = false.
Proof. by destruct x as [[|]| | |]. Qed.

Lemma divergence_text_marker d :
  is_divergence (add_field ((divergence_text d).1 +:+ " Divergence") (divergence_text d).2 true)
  = true /\
  is_discount (add_field ((divergence_text d).1 +:+ " Divergence") (divergence_text d).2 true)
  = false.
Proof.
  unfold divergence_text. destruct (PyFloat.gt0 d); [by split|].
  destruct (PyFloat.lt0 d); by split.
Qed.

Lemma format_fixed_negative p x :
  PyFloat.lt0 x = true -> exists rest, PyFloat.format_fixed p x = "-" +:+ rest.
Proof.
  destruct x as [[|]|[|]| |[|] m e]; try done; intros _; unfold PyFloat.format_fixed.
  - eexists. reflexivity.
  - destruct e; eexists; reflexivity.
Qed.

(** C4. For every listing whose reference has a predicted price above
    zero and whose embed the builder gets to return (the timestamp is
    read, the price, the predicted price and the base price are numbers
    that convert to floats, the watchers count is not [null]), the embed
    carries exactly one divergence field, computed in binary64 as
    [((price - predicted) / predicted) * 100] and shown with one decimal:
    with a leading "+" when positive, with its own minus sign when
    negative, and as "0.0%" otherwise; and it carries the discount field
    [((predicted - price) / predicted) * 100] exactly when the base price
    is above zero and the price is below the predicted price.  With
    predicted 100.00 and base 100.00, the prices 90.00, 110.00 and 100.00
    give "-10.0%" with discount "10.0%", "+10.0%" without discount, and
    "0.0%" without discount. *)
Theorem divergence_and_discount_fields :
  (forall w listing r predicted base price_usd,
     fromisoformat w (timestamp_text listing) = Ok tt ->
     PyFloat.int_truediv (price listing) 100 = Ok price_usd ->
     reference listing = Some r ->
     dollars (predicted_price r) = Ok predicted ->
     dollars (base_price r) = Ok base ->
     watchers listing <> Null ->
     PyFloat.gt0 predicted = true ->
     let divergence_pct :=
       PyFloat.mul (SFdiv PyFloat.prec PyFloat.emax
                      (PyFloat.sub price_usd predicted) predicted) (PyFloat.of_Z 100) in
     let discount_pct :=
       PyFloat.mul (SFdiv PyFloat.prec PyFloat.emax
                      (PyFloat.sub predicted price_usd) predicted) (PyFloat.of_Z 100) in
     exists embed,
       create_listing_embed w listing = Ok embed /\
       divergence_fields embed
       = [if PyFloat.gt0 divergence_pct then
            add_field "📈 Divergence"
              ("+" +:+ PyFloat.format_fixed 1 divergence_pct +:+ "%") true
          else if PyFloat.lt0 divergence_pct then
            add_field "📉 Divergence" (PyFloat.format_fixed 1 divergence_pct +:+ "%") true
          else add_field "⚖️ Divergence" "0.0%" true] /\
       (PyFloat.lt0 divergence_pct = true ->
        exists rest, PyFloat.format_fixed 1 divergence_pct = "-" +:+ rest) /\
       discount_fields embed
       = (if PyFloat.gt0 base && PyFloat.ltb price_usd predicted then
            [add_field "💸 Discount" (PyFloat.format_fixed 1 discount_pct +:+ "%") true]
          else [])) /\
  price_fields (world_of []) (priced 9000)
  = ([add_field "📉 Divergence" "-10.0%" true], [add_field "💸 Discount" "10.0%" true]) /\
  price_fields (world_of []) (priced 11000)
  = ([add_field "📈 Divergence" "+10.0%" true], []) /\
  price_fields (world_of []) (priced 10000)
  = ([add_field "⚖️ Divergence" "0.0%" true], []).
Proof.
  split_and!; [|vm_compute; reflexivity..].
  intros w listing r predicted base price_usd Hts Hprice Hr Hpred Hbase Hwatch Hgt
         divergence_pct discount_pct.
  pose proof (gt0_not_zero _ Hgt) as Hnz.
  assert (Href : reference_fields price_usd (reference listing)
                 = Ok ([add_field "📈 Predicted" ("$" +:+ PyFloat.format_fixed 2 predicted) true;
                        add_field ((divergence_text divergence_pct).1 +:+ " Divergence")
                                  (divergence_text divergence_pct).2 true] ++
                       (if PyFloat.gt0 base && PyFloat.ltb price_usd predicted then
                          [add_field "💸 Discount"
                             (PyFloat.format_fixed 1 discount_pct +:+ "%") true]
                        else []))).
  { rewrite Hr. unfold reference_fields, bind. rewrite Hpred, Hbase, Hgt.
    unfold pct_of, PyFloat.truediv, bind. rewrite Hnz. fold divergence_pct discount_pct.
    destruct (divergence_text divergence_pct) as [marker text].
    by destruct (PyFloat.gt0 base && PyFloat.ltb price_usd predicted). }
  destruct (watcher_fields_returns listing Hwatch) as [watch Hw].
  destruct (create_listing_embed_price_fields w listing _ _ _ Hts Hprice Href Hw)
    as (embed & Hembed & Hdiv & Hdisc).
  exists embed. split_and!; [done| | |].
  - rewrite Hdiv. destruct (divergence_text_marker divergence_pct) as [Hm _].
    rewrite List.filter_app. cbn [List.filter]. rewrite Hm.
    replace (is_divergence (add_field "📈 Predicted" _ true)) with false by reflexivity.
    assert (Hnone : List.filter is_divergence
              (if PyFloat.gt0 base && PyFloat.ltb price_usd predicted then
                 [add_field "💸 Discount" (PyFloat.format_fixed 1 discount_pct +:+ "%") true]
               else []) = []) by (by destruct (_ && _)).
    rewrite Hnone. unfold divergence_text.
    destruct (PyFloat.gt0 divergence_pct); [done|]. by destruct (PyFloat.lt0 divergence_pct).
  - apply format_fixed_negative.
  - rewrite Hdisc. destruct (divergence_text_marker divergence_pct) as [_ Hm].
    rewrite List.filter_app. cbn [List.filter]. rewrite Hm.
    replace (is_discount (add_field "📈 Predicted" _ true)) with false by reflexivity.
    by destruct (_ && _).
Qed.

Lemma divergence_and_discount_fields_witness :
  exists embed,
    create_listing_embed (world_of []) (priced 9000) = Ok embed /\
    divergence_fields embed = [add_field "📉 Divergence" "-10.0%" true] /\
    discount_fields embed = [add_field "💸 Discount" "10.0%" true].
Proof.
  destruct (proj1 divergence_and_discount_fields (world_of []) (priced 9000)
              {| predicted_price := Present 10000; base_price := Present 10000 |}
              (PyFloat.of_Z 100) (PyFloat.of_Z 100) (PyFloat.of_Z 90))
    as (embed & Hembed & Hdiv & _ & Hdisc);
    [reflexivity | vm_compute; reflexivity | reflexivity | vm_compute; reflexivity
    | vm_compute; reflexivity | discriminate | vm_compute; reflexivity |].
  exists embed. split_and!; [done| |].
  - rewrite Hdiv. vm_compute. reflexivity.
  - rewrite Hdisc. vm_compute. reflexivity.
Defined.

(** ** The embedding on concrete inputs *)

Example split_ws_runs :
  PyStr.split_ws "  max_float=0.15   sort_by=best_deal " = ["max_float=0.15"; "sort_by=best_deal"].
Proof. reflexivity. Qed.

Example split_ws_no_break_space :
  PyStr.split_ws ("limit=5" +:+ String (ascii_of_nat 160) "sort_by=best_deal" +:+
                  String (ascii_of_nat 133) "x=1")
  = ["limit=5"; "sort_by=best_deal"; "x=1"].
Proof. reflexivity. Qed.

Example coerce_values :
  map coerce ["5000"; "-3"; "0.15"; "1e3"; "1.5e3"; "FN"; "1_000"; "1.2.3"; "+7"]
  = [PInt 5000; PInt (-3); PFloat (S754_finite false 5404319552844595 (-55));
     PStr "1e3"; PFloat (S754_finite false 6597069766656000 (-42)); PStr "FN";
     PInt 1000; PStr "1.2.3"; PInt 7].
Proof. vm_compute. reflexivity. Qed.

Example format_fixed_ties_to_even :
  map (PyFloat.format_fixed 1)
      [PyFloat.of_decimal false 25 (-2); PyFloat.of_decimal false 75 (-2);
       PyFloat.of_decimal true 4 (-2); PyFloat.of_decimal false 35 (-2)]
  = ["0.2"; "0.8"; "-0.0"; "0.3"].
Proof. vm_compute. reflexivity. Qed.

Example repr_shortest :
  map PyFloat.repr
      [PyFloat.of_decimal false 15 (-2); PyFloat.of_decimal false 1 16;
       PyFloat.of_decimal false 1 (-5); PyFloat.of_decimal false 5 0;
       PyFloat.of_decimal false 1 (-1)]
  = ["0.15"; "1e+16"; "1e-05"; "5.0"; "0.1"].
Proof. vm_compute. reflexivity. Qed.

(** At a power of two the floats below are twice as dense as those
    above, and the nearest 16 digits need not read back: 2 ^ -24. *)
Example repr_power_of_two :
  map PyFloat.repr
      [S754_finite false 4503599627370496 (-76); S754_finite false 4503599627370496 10;
       S754_finite false 1 (-1074)]
  = ["5.960464477539063e-08"; "4.611686018427388e+18"; "5e-324"].
Proof. vm_compute. reflexivity. Qed.

Example price_in_dollars :
  map (fun cents => match PyFloat.int_truediv cents 100 with
                    | Ok x => PyFloat.format_fixed 2 x
                    | Raise _ => "raised"
                    end) [12345; 5; 0; 1999; 10 ^ 400]
  = ["123.45"; "0.05"; "0.00"; "19.99"; "raised"].
Proof. vm_compute. reflexivity. Qed.

Example sticker_truncation :
  sticker_fields
    {| market_hash_name := "M4A4"; float_value := PyFloat.zero; paint_seed := Absent;
       wear_name := Absent; is_stattrak := None; is_souvenir := None; rarity := Absent;
       stickers := Some (map Build_Sticker ["a"; "b"; "c"; "d"; "e"]);
       icon_url := None |}
  = [add_field "🏷️ Stickers"
       ("a" +:+ PyStr.nl +:+ "b" +:+ PyStr.nl +:+ "c" +:+ PyStr.nl +:+ "... and 2 more") false].
Proof. vm_compute. reflexivity. Qed.

Example shown_values :
  map (shown PyStr.of_Z "N/A") [Absent; Null; Present 661] = ["N/A"; "None"; "661"].
Proof. reflexivity. Qed.

(** A timestamp the library does not read, and a watchers count that is
    [null]: the builder raises, and the cycle logs what it raised. *)
Example create_listing_embed_refuses :
  let l := sample_listing "L1" named_seller 9000 None in
  let yesterday :=
    {| listing_id := "L1"; item := item l; seller := seller l; created_at := "yesterday";
       price := 9000; reference := None; watchers := Absent; description := None |} in
  let unwatched :=
    {| listing_id := "L1"; item := item l; seller := seller l; created_at := created_at l;
       price := 9000; reference := None; watchers := Null; description := None |} in
  create_listing_embed (world_of []) yesterday
  = Raise (ValueError "Invalid isoformat string: 'yesterday'") /\
  create_listing_embed (world_of []) unwatched
  = Raise (TypeError "'>' not supported between instances of 'NoneType' and 'int'") /\
  (check_listings (world_of [yesterday]) tracking_X).2
  = [Log ERROR "Error checking listings for X: Invalid isoformat string: 'yesterday'"] /\
  seen_listings (check_listings (world_of [yesterday]) tracking_X).1 = list_to_set ["L1"].
Proof. cbv zeta. split_and!; vm_compute; reflexivity. Qed.

(** * Further properties *)

(** ** What a cycle changes and what it sends *)

Lemma check_configs_frame w chan configs : forall n b,
  let b' := (check_configs w chan n configs b).1 in
  csfloat_api_key b' = csfloat_api_key b /\
  channel_id b' = channel_id b /\
  tracking_configs b' = tracking_configs b.
Proof.
  induction configs as [|[name config] configs IH]; intros n b; simpl; [done|].
  pose proof (check_config_frame w chan n name config b) as (Hk & Hc & Ht).
  destruct (check_config w chan n name config b) as [b1 ev1]. cbn [fst] in *.
  pose proof (IH (S n) b1) as (Hk' & Hc' & Ht').
  destruct (check_configs w chan (S n) configs b1) as [b2 ev2]. cbn [fst] in *.
  split_and!; congruence.
Qed.

(** X1. A polling cycle changes nothing of the bot but its seen set: the
    store of configurations, the default channel and the API key are
    what they were.  With an empty store it does nothing at all, and
    with a channel that does not resolve it only logs a warning; in both
    cases nothing is fetched and the seen set stays as it was. *)
Theorem check_listings_frame w b :
  let b' := (check_listings w b).1 in
  tracking_configs b' = tracking_configs b /\
  channel_id b' = channel_id b /\
  csfloat_api_key b' = csfloat_api_key b /\
  (tracking_configs b = [] -> check_listings w b = (b, [])) /\
  (tracking_configs b <> [] -> get_channel w (channel_id b) = false ->
   b' = b /\
   (check_listings w b).2
   = [Log WARNING ("Channel with ID " +:+ PyStr.of_Z (channel_id b) +:+ " not found")]).
Proof.
  unfold check_listings. destruct (tracking_configs b) as [|c cs] eqn:Hcs.
  - by split_and!.
  - destruct (get_channel w (channel_id b)).
    + destruct (check_configs_frame w (channel_id b) (c :: cs) 0 b) as (Hk & Hc & Ht).
      split_and!; [congruence | done | done | done | done].
    + by split_and!.
Qed.

Lemma check_listings_frame_witness :
  check_listings (world_of six_listings) (init None 1) = (init None 1, []) /\
  (check_listings
     {| http_get := http_get (world_of six_listings); get_channel := fun _ => false;
        channel_send := channel_send (world_of six_listings);
        ctx_send := ctx_send (world_of six_listings);
        fromisoformat := sample_fromisoformat |} tracking_X).1 = tracking_X.
Proof.
  split.
  - apply (proj1 (proj2 (proj2 (proj2
             (check_listings_frame (world_of six_listings) (init None 1)))))).
    reflexivity.
  - apply (proj2 (proj2 (proj2 (proj2
             (check_listings_frame
                {| http_get := http_get (world_of six_listings);
                   get_channel := fun _ => false;
                   channel_send := channel_send (world_of six_listings);
                   ctx_send := ctx_send (world_of six_listings);
                   fromisoformat := sample_fromisoformat |} tracking_X))))).
    + vm_compute. discriminate.
    + reflexivity.
Defined.

Lemma send_new_length w chan name ls :
  (length (send_new w chan name ls).1 <= length ls)%nat.
Proof.
  destruct (send_new_prefix w chan name ls) as (k & Hk & Hcalls).
  rewrite <- (length_fmap Some), Hcalls, length_fmap, length_take. lia.
Qed.

Lemma check_configs_sends_length w chan configs : forall n b,
  (length (sends (check_configs w chan n configs b).2) <= 5 * length configs)%nat.
Proof.
  induction configs as [|[name config] configs IH]; intros n b; simpl; [lia|].
  pose proof (check_config_sends w chan n name config b) as Hs.
  destruct (check_config w chan n name config b) as [b1 ev1]. cbn [snd] in Hs.
  pose proof (IH (S n) b1) as Hrest.
  destruct (check_configs w chan (S n) configs b1) as [b2 ev2]. cbn [snd] in *.
  rewrite sends_app, length_app, Hs.
  pose proof (send_new_length w chan name (take 5 (new_listings_of w n config b))) as Hlen.
  rewrite length_take in Hlen. lia.
Qed.

(** X3. The burst of one cycle is bounded: a cycle calls [channel.send]
    at most five times per stored configuration. *)
Theorem check_listings_burst w b :
  (length (sends (check_listings w b).2) <= 5 * length (tracking_configs b))%nat.
Proof.
  unfold check_listings. destruct (tracking_configs b) as [|c cs] eqn:Hcs; [simpl; lia|].
  destruct (get_channel w (channel_id b)); [|simpl; lia].
  apply check_configs_sends_length.
Qed.

Lemma notification_calls w chan name ls : forall calls,
  Some <$> calls = notification w chan name <$> ls ->
  Forall (fun ev => exists l embed,
            l ∈ ls /\ create_listing_embed w l = Ok embed /\
            ev = ChannelSend chan (new_listing_text name) embed) calls.
Proof.
  induction ls as [|l ls IH]; intros [|call calls]; try done.
  rewrite !fmap_cons. intros [= Hcall Hrest]. apply Forall_cons. split.
  - unfold notification in Hcall. destruct (create_listing_embed w l) as [embed|] eqn:He; [|done].
    injection Hcall as ->. exists l, embed. split_and!; [set_solver | done | done].
  - eapply Forall_impl; [by apply IH|]. intros ev (l' & embed & Hin & He & ->).
    exists l', embed. split_and!; [set_solver | done | done].
Qed.

Lemma check_config_scheduler_sends w chan n name config b :
  Forall (fun ev => exists l embed,
            ev = ChannelSend chan (new_listing_text name) embed /\
            create_listing_embed w l = Ok embed /\
            listing_id l ∉ seen_listings b)
         (sends (check_config w chan n name config b).2).
Proof.
  rewrite check_config_sends.
  destruct (send_new_prefix w chan name (take 5 (new_listings_of w n config b)))
    as (k & _ & Hcalls).
  eapply Forall_impl; [by apply (notification_calls _ _ _ _ _ Hcalls)|].
  intros ev (l & embed & Hin & He & ->). exists l, embed. split_and!; [done | done |].
  destruct (diff_listings_spec (answered w n b (params config)).1 (seen_listings b))
    as (_ & _ & _ & Hnew).
  apply Hnew. apply elem_of_ids_take with (k := 5%nat), elem_of_ids_take with (k := k).
  unfold ids. by apply list_elem_of_fmap_2.
Qed.

Lemma check_configs_scheduler_sends w chan configs : forall n b,
  Forall (fun ev => exists name config l embed,
            ev = ChannelSend chan (new_listing_text name) embed /\
            (name, config) ∈ configs /\
            create_listing_embed w l = Ok embed /\
            listing_id l ∉ seen_listings b)
         (sends (check_configs w chan n configs b).2).
Proof.
  induction configs as [|[name config] configs IH]; intros n b; simpl; [by apply Forall_nil_2|].
  pose proof (check_config_scheduler_sends w chan n name config b) as H1.
  pose proof (check_config_dedup w chan n name config b) as [Hsub _].
  destruct (check_config w chan n name config b) as [b1 ev1]. cbn [fst snd] in *.
  pose proof (IH (S n) b1) as H2.
  destruct (check_configs w chan (S n) configs b1) as [b2 ev2]. cbn [snd] in *.
  rewrite sends_app. apply Forall_app. split.
  - eapply Forall_impl; [exact H1|]. intros ev (l & embed & -> & He & Hnot).
    exists name, config, l, embed. split_and!; [done | set_solver | done | done].
  - eapply Forall_impl; [exact H2|]. intros ev (name' & config' & l & embed & -> & Hin & He & Hnot).
    exists name', config', l, embed. split_and!; [done | set_solver | done | set_solver].
Qed.

(** X4. Every notification of a cycle goes to the default channel of the
    bot, under the header of a configuration of the store, and carries
    the embed of a listing whose id was not in the seen set when the
    cycle began.  The channel recorded with a configuration when it was
    tracked plays no part. *)
Theorem check_listings_destination w b :
  Forall (scheduler_send w b) (sends (check_listings w b).2).
Proof.
  unfold check_listings. destruct (tracking_configs b) as [|c cs] eqn:Hcs;
    [by apply Forall_nil_2|].
  destruct (get_channel w (channel_id b)); [|by apply Forall_nil_2].
  eapply Forall_impl; [by apply check_configs_scheduler_sends|].
  intros ev (name & config & l & embed & -> & Hin & He & Hnot).
  exists name, config, l, embed. by rewrite Hcs.
Qed.

(** ** The order of the new listings *)

Lemma diff_listings_sublist ls : forall seen, sublist (diff_listings ls seen).1 ls.
Proof.
  induction ls as [|l ls IH]; intros seen.
  - by apply sublist_nil.
  - rewrite diff_listings_cons. case_bool_decide.
    + by apply sublist_cons.
    + simpl. by apply sublist_skip.
Qed.

(** X5. The new listings of a fetch are taken in the order of the
    answer: they form a subsequence of it, their ids are distinct, and
    an id is among them exactly when it is in the answer and was not
    seen.  The cap of five therefore keeps the first five unseen ids in
    the endpoint's own order. *)
Theorem diff_listings_order ls seen :
  let new := (diff_listings ls seen).1 in
  sublist new ls /\
  NoDup (ids new) /\
  (forall id, id ∈ ids new <-> id ∈ ids ls /\ id ∉ seen).
Proof.
  destruct (diff_listings_spec ls seen) as (Ha & Hb & Hnd & Hnew).
  split_and!; [apply diff_listings_sublist | done |].
  intros id. split; [intros Hin; by destruct (Hnew id Hin)|].
  intros [Hin Hnot].
  assert (Hs : id ∈ (diff_listings ls seen).2) by (rewrite Ha; set_solver).
  rewrite Hb in Hs. set_solver.
Qed.

(** ** A send that raises *)

(** X6. When the transport refuses the notification of the first new
    listing of a configuration, that refused call is the only
    [channel.send] made for the configuration in the cycle: the later
    new listings are not tried.  All of them are in the seen set all the
    same, so that no later cycle or command notifies any of them. *)
Theorem check_config_send_raises w chan n name config b l rest embed e :
  new_listings_of w n config b = l :: rest ->
  create_listing_embed w l = Ok embed ->
  channel_send w chan (new_listing_text name) embed = Raise e ->
  let b' := (check_config w chan n name config b).1 in
  sends (check_config w chan n name config b).2
  = [ChannelSend chan (new_listing_text name) embed] /\
  (forall id, id ∈ ids (l :: rest) -> id ∈ seen_listings b') /\
  (forall id ops, id ∈ ids (l :: rest) -> notifications id (run ops b').2 = 0%nat).
Proof.
  intros Hnew He Hsend b'.
  assert (Hseen : forall id, id ∈ ids (l :: rest) -> id ∈ seen_listings b').
  { intros id Hin. subst b'. rewrite check_config_seen.
    destruct (diff_listings_spec (answered w n b (params config)).1 (seen_listings b))
      as (_ & -> & _).
    fold (new_listings_of w n config b). rewrite Hnew. set_solver. }
  split_and!; [|done|].
  - rewrite check_config_sends, Hnew. cbn [take send_new]. by rewrite He, Hsend.
  - intros id ops Hin. apply run_dedup. by apply Hseen.
Qed.

Lemma check_config_send_raises_witness :
  let w := refusing_world six_listings in
  let config := {| params := default_params 7 282; channel := 1 |} in
  length (sends (check_config w 1 0 "X" config tracking_X).2) = 1%nat /\
  notifications "L2"
    (run [(world_of six_listings, Tick)] (check_config w 1 0 "X" config tracking_X).1).2
  = 0%nat.
Proof.
  cbv zeta.
  destruct (check_config_send_raises (refusing_world six_listings) 1 0 "X"
              {| params := default_params 7 282; channel := 1 |} tracking_X
              (sample_listing "L1" named_seller 9000 None)
              (sample_listings ["L2"; "L3"; "L4"; "L5"; "L6"])
              (match create_listing_embed (refusing_world six_listings)
                       (sample_listing "L1" named_seller 9000 None) with
               | Ok embed => embed
               | Raise _ => sort_options_embed
               end)
              (TransportError "403 Forbidden"))
    as (Hsends & _ & Hrun).
  - vm_compute. reflexivity.
  - vm_compute. reflexivity.
  - reflexivity.
  - split.
    + by rewrite Hsends.
    + apply Hrun. apply (elem_of_ids_sample ["L1"; "L2"; "L3"; "L4"; "L5"; "L6"]). set_solver.
Defined.

(** ** The store of tracking configurations, continued *)

Lemma Dict_get_set_ne {V : Type} (k k' : string) (v : V) d :
  k <> k' -> Dict.get k' (Dict.set k v d) = Dict.get k' d.
Proof.
  intros Hne. induction d as [|[k0 v0] d IH]; simpl.
  - destruct (String.eqb_spec k k'); [done|done].
  - destruct (String.eqb_spec k0 k) as [->|]; simpl.
    + destruct (String.eqb_spec k k'); [done|done].
    + by rewrite IH.
Qed.

Lemma Dict_mem_elem {V : Type} (k : string) (d : list (string * V)) :
  Dict.mem k d = true <-> k ∈ d.*1.
Proof.
  unfold Dict.mem. induction d as [|[k0 v0] d IH]; simpl.
  - split; [done | intros H; inversion H].
  - destruct (String.eqb_spec k0 k) as [->|Hne].
    + split; [set_solver | done].
    + rewrite IH. set_solver.
Qed.

Lemma Dict_set_keys {V : Type} (k : string) (v : V) d :
  (Dict.set k v d).*1 = if Dict.mem k d then d.*1 else d.*1 ++ [k].
Proof.
  unfold Dict.mem. induction d as [|[k0 v0] d IH]; [done|].
  cbn [Dict.set Dict.get].
  destruct (String.eqb_spec k0 k) as [->|Hne]; [by rewrite !fmap_cons|].
  rewrite !fmap_cons, IH. by destruct (Dict.get k d).
Qed.

Lemma Dict_set_NoDup {V : Type} (k : string) (v : V) d :
  NoDup d.*1 -> NoDup (Dict.set k v d).*1.
Proof.
  intros Hnd. rewrite Dict_set_keys. destruct (Dict.mem k d) eqn:Hmem; [done|].
  apply NoDup_app. split_and!; [done| |apply NoDup_singleton].
  intros x Hx Hk. apply list_elem_of_singleton in Hk as ->.
  apply Dict_mem_elem in Hx. congruence.
Qed.

Lemma Dict_set_elem_inv {V : Type} (k : string) (v : V) d k' v' :
  (k', v') ∈ Dict.set k v d -> (k' = k /\ v' = v) \/ (k', v') ∈ d.
Proof.
  induction d as [|[k0 v0] d IH]; simpl.
  - intros Hin. apply list_elem_of_singleton in Hin as [= -> ->]. by left.
  - destruct (String.eqb_spec k0 k) as [->|Hne]; intros Hin;
      apply elem_of_cons in Hin as [[= -> ->]|Hin].
    + by left.
    + right. set_solver.
    + right. set_solver.
    + destruct (IH Hin) as [?|?]; [by left | right; set_solver].
Qed.

Lemma Dict_del_sublist {V : Type} (k : string) (d : list (string * V)) :
  sublist (Dict.del k d) d.
Proof.
  induction d as [|[k0 v0] d IH]; simpl; [done|].
  destruct (String.eqb k0 k); [by apply sublist_cons | by apply sublist_skip].
Qed.

Lemma Dict_get_None {V : Type} (k : string) (d : list (string * V)) :
  k ∉ d.*1 -> Dict.get k d = None.
Proof.
  intros Hnot. destruct (Dict.get k d) eqn:Hget; [|done].
  exfalso. apply Hnot, Dict_mem_elem. unfold Dict.mem. by rewrite Hget.
Qed.

Lemma Dict_get_del {V : Type} (k : string) (d : list (string * V)) :
  NoDup d.*1 -> Dict.get k (Dict.del k d) = None.
Proof.
  induction d as [|[k0 v0] d IH]; simpl; [done|]. intros Hnd.
  apply NoDup_cons in Hnd as [Hnot Hnd].
  destruct (String.eqb_spec k0 k) as [->|Hne]; simpl.
  - by apply Dict_get_None.
  - destruct (String.eqb_spec k0 k); [done|]. by apply IH.
Qed.

Lemma Dict_get_del_ne {V : Type} (k k' : string) (d : list (string * V)) :
  k <> k' -> Dict.get k' (Dict.del k d) = Dict.get k' d.
Proof.
  intros Hne. induction d as [|[k0 v0] d IH]; simpl; [done|].
  destruct (String.eqb_spec k0 k) as [->|Hne0]; simpl.
  - by destruct (String.eqb_spec k k').
  - by rewrite IH.
Qed.

Lemma Dict_mem_set {V : Type} (k k' : string) (v : V) d :
  Dict.mem k' d = true -> Dict.mem k' (Dict.set k v d) = true.
Proof.
  rewrite !Dict_mem_elem, Dict_set_keys. destruct (Dict.mem k d); set_solver.
Qed.

(** The loop over the tokens keeps the four keys it starts with, and
    keeps [sort_by] a sort option. *)
Lemma parse_params_well_formed tokens : forall param_dict result,
  well_formed_params param_dict ->
  parse_params tokens param_dict = Params result ->
  well_formed_params result.
Proof.
  induction tokens as [|param tokens IH]; intros pd result Hwf; cbn [parse_params].
  - by intros [= <-].
  - destruct (PyStr.split_once "=" param) as [[key value]|]; [|by apply IH].
    destruct Hwf as (Hd & Hp & Hl & o & Hs).
    destruct (String.eqb_spec key "sort_by") as [->|Hkey].
    + destruct (SortOption_lookup value) as [sort_value|]; [|done].
      apply IH. split_and!; [by apply Dict_mem_set.. |].
      exists sort_value. apply Dict_get_set.
    + apply IH. split_and!; [by apply Dict_mem_set.. |].
      exists o. by rewrite Dict_get_set_ne.
Qed.

Lemma default_params_well_formed def_index paint_index :
  well_formed_params (default_params def_index paint_index).
Proof. split_and!; [done..|]. by exists BEST_DEAL. Qed.

Lemma list_tracking_state w b : (list_tracking w b).1 = b.
Proof. unfold list_tracking. by case_match. Qed.

Lemma test_fetch_state w def_index paint_index limit sort_by b :
  (test_fetch w def_index paint_index limit sort_by b).1 = b.
Proof.
  unfold test_fetch. destruct (SortOption_lookup sort_by); [|done].
  destruct (call_fetch_listings w 0 b _) as [[[|l ls] fetch_log]|e]; done.
Qed.

Lemma step_store_ok w op b :
  store_ok (tracking_configs b) -> store_ok (tracking_configs (step w op b).1).
Proof.
  intros [Hnd Hwf].
  assert (Hset : forall chan name def_index paint_index params param_dict,
            parse_params (track_tokens params) (default_params def_index paint_index)
            = Params param_dict ->
            store_ok (Dict.set name {| params := param_dict; channel := chan |}
                        (tracking_configs b))).
  { intros chan name def_index paint_index params param_dict Hparse.
    split; [by apply Dict_set_NoDup|].
    intros name' config' Hin. apply Dict_set_elem_inv in Hin as [[-> ->]|Hin]; [|by eapply Hwf].
    eapply parse_params_well_formed; [apply default_params_well_formed | exact Hparse]. }
  destruct op as [|chan name def_index paint_index params
                  |chan name def_index paint_index params|name param_dict
                  |name| |def_index paint_index limit sort_by];
    cbn [step].
  - by destruct (check_listings_frame w b) as (-> & _).
  - destruct (parse_params (track_tokens params) (default_params def_index paint_index))
      as [param_dict|value] eqn:Hparse.
    + destruct (track_items_store w chan name _ _ _ b _ Hparse) as (-> & _).
      by eapply Hset.
    + unfold track_items, track_items_begin. by rewrite Hparse.
  - pose proof (track_items_begin_spec w chan name def_index paint_index params b) as H.
    cbv zeta in H.
    destruct (parse_params (track_tokens params) (default_params def_index paint_index))
      as [param_dict|value] eqn:Hparse.
    + destruct H as (-> & _). by eapply Hset.
    + by rewrite H.
  - by destruct (track_items_resume_spec w name param_dict b) as (_ & -> & _).
  - unfold untrack_items. destruct (Dict.mem name (tracking_configs b)); [|done].
    cbn [fst tracking_configs set_tracking_configs].
    pose proof (Dict_del_sublist name (tracking_configs b)) as Hsub. split.
    + exact (sublist_NoDup _ _ Hnd (fmap_sublist fst _ _ Hsub)).
    + intros name' config' Hin. eapply Hwf. eapply elem_of_sublist; [exact Hin | exact Hsub].
  - by rewrite list_tracking_state.
  - by rewrite test_fetch_state.
Qed.

Lemma run_store_ok ops : forall b,
  store_ok (tracking_configs b) -> store_ok (tracking_configs (run ops b).1).
Proof.
  induction ops as [|[w op] ops IH]; intros b Hok; simpl; [done|].
  pose proof (step_store_ok w op b Hok) as H1. destruct (step w op b) as [b1 ev1].
  pose proof (IH b1 H1) as H2. by destruct (run ops b1) as [b2 ev2].
Qed.

(** X7. Whatever commands and cycles have run since the bot started,
    the names in the store are distinct, and every stored configuration
    has the keys def_index, paint_index and limit and a [sort_by] that
    is one of the eight sort options: an extra parameter can overwrite
    these keys but never removes them, and a [sort_by] only enters the
    store through the validation. *)
Theorem store_invariant ops api_key chan :
  let configs := tracking_configs (run ops (init api_key chan)).1 in
  NoDup configs.*1 /\
  (forall name config, (name, config) ∈ configs ->
     Dict.mem "def_index" (params config) = true /\
     Dict.mem "paint_index" (params config) = true /\
     Dict.mem "limit" (params config) = true /\
     exists value, Dict.get "sort_by" (params config) = Some (PStr value) /\
                   value ∈ valid_options).
Proof.
  destruct (run_store_ok ops (init api_key chan)) as [Hnd Hwf].
  { split; [apply NoDup_nil_2|]. intros name config Hin. inversion Hin. }
  split; [done|]. intros name config Hin.
  destruct (Hwf name config Hin) as (Hd & Hp & Hl & o & Hs).
  split_and!; [done..|]. exists (SortOption_value o). split; [done|].
  unfold valid_options. apply list_elem_of_fmap_2. destruct o; set_solver.
Qed.

Lemma store_invariant_witness :
  exists value,
    Dict.get "sort_by" (default_params 7 282) = Some (PStr value) /\ value ∈ valid_options.
Proof.
  destruct (store_invariant [(world_of [], Track 1 "X" 7 282 EmptyString)] None 1) as [_ H].
  destruct (H "X" {| params := default_params 7 282; channel := 1 |}) as (_ & _ & _ & Hs).
  - vm_compute. set_solver.
  - exact Hs.
Defined.

(** X8. [untrack] of a name takes its configuration out of the store
    and leaves every other configuration, the seen set and the default
    channel as they were, so that ids seen for the removed configuration
    stay seen; for a name that is not in the store it changes nothing.
    The reply tells which of the two happened. *)
Theorem untrack_items_removes w name b :
  NoDup (tracking_configs b).*1 ->
  let b' := (untrack_items w name b).1 in
  Dict.get name (tracking_configs b') = None /\
  (forall other, other <> name ->
     Dict.get other (tracking_configs b') = Dict.get other (tracking_configs b)) /\
  seen_listings b' = seen_listings b /\
  channel_id b' = channel_id b /\
  (Dict.mem name (tracking_configs b) = false -> b' = b) /\
  (untrack_items w name b).2
  = [CtxSend (Some (if Dict.mem name (tracking_configs b)
                    then "✅ Stopped tracking **" +:+ name +:+ "**"
                    else "❌ No tracking configuration found for **" +:+ name +:+ "**"))
             None].
Proof.
  intros Hnd. unfold untrack_items.
  destruct (Dict.mem name (tracking_configs b)) eqn:Hmem; cbn [fst snd].
  - split_and!; [by apply Dict_get_del | | done | done | done | done].
    intros other Hne. by apply Dict_get_del_ne.
  - split_and!; [|done..].
    apply Dict_get_None. intros Hin. apply Dict_mem_elem in Hin. congruence.
Qed.

Lemma untrack_items_removes_witness :
  tracking_configs (untrack_items (world_of []) "X" tracking_X).1 = [] /\
  channel_id (untrack_items (world_of []) "X" tracking_X).1 = 1.
Proof.
  destruct (untrack_items_removes (world_of []) "X" tracking_X) as (_ & _ & _ & Hchan & _).
  - vm_compute. apply NoDup_singleton.
  - split; [reflexivity | exact Hchan].
Defined.

(** X9. [track] is last-write-wins on the name: when the parameters
    parse, the store holds the new configuration under the name, every
    other name keeps its configuration, and the order of the names is
    kept, a new name going last and a name already there keeping its
    place. *)
Theorem track_items_last_write_wins
  w chan name def_index paint_index params b param_dict :
  parse_params (track_tokens params) (default_params def_index paint_index)
  = Params param_dict ->
  let b' := (track_items w chan name def_index paint_index params b).1 in
  Dict.get name (tracking_configs b') = Some {| params := param_dict; channel := chan |} /\
  (forall other, other <> name ->
     Dict.get other (tracking_configs b') = Dict.get other (tracking_configs b)) /\
  (tracking_configs b').*1
  = (if Dict.mem name (tracking_configs b) then (tracking_configs b).*1
     else (tracking_configs b).*1 ++ [name]).
Proof.
  intros Hparse b'. subst b'.
  destruct (track_items_store w chan name _ _ _ b _ Hparse) as (-> & _).
  split_and!; [apply Dict_get_set | | apply Dict_set_keys].
  intros other Hne. by apply Dict_get_set_ne.
Qed.

Lemma track_items_last_write_wins_witness :
  (tracking_configs (track_items (world_of []) 2 "Y" 5034 10033 "max_float=0.08" tracking_X).1).*1
  = ["X"; "Y"].
Proof.
  destruct (track_items_last_write_wins (world_of []) 2 "Y" 5034 10033 "max_float=0.08"
              tracking_X
              [("def_index", PInt 5034); ("paint_index", PInt 10033); ("limit", PInt 20);
               ("sort_by", PStr "best_deal");
               ("max_float", PFloat (PyFloat.of_decimal false 8 (-2)))])
    as (_ & _ & Hkeys).
  - vm_compute. reflexivity.
  - rewrite Hkeys. reflexivity.
Defined.

(** X10. When the confirmation of a [track] cannot be sent, the
    configuration is in the store all the same (and the default channel
    is set as for any add), but the initial fetch is not made: the seen
    set is what it was, so that the listings existing at that moment are
    new to the next cycle.  The handler reports the failure. *)
Theorem track_items_confirmation_raises
  w chan name def_index paint_index params b param_dict e :
  parse_params (track_tokens params) (default_params def_index paint_index)
  = Params param_dict ->
  ctx_send w None (Some (tracking_started name param_dict None)) = Raise e ->
  let r := track_items w chan name def_index paint_index params b in
  Dict.get name (tracking_configs r.1) = Some {| params := param_dict; channel := chan |} /\
  seen_listings r.1 = seen_listings b /\
  r.2 = [CtxSend None (Some (tracking_started name param_dict None));
         CtxSend (Some ("❌ Error setting up tracking: " +:+ exn_text e)) None].
Proof.
  intros Hparse Hsend r.
  destruct (track_items_store w chan name _ _ _ b _ Hparse) as (Hconfigs & _).
  fold r in Hconfigs. split_and!.
  - rewrite Hconfigs. apply Dict_get_set.
  - subst r. unfold track_items, track_items_begin. rewrite Hparse. unfold send_in_try.
    rewrite Hsend. cbn [fst]. by case_match.
  - subst r. unfold track_items, track_items_begin. rewrite Hparse. unfold send_in_try.
    by rewrite Hsend.
Qed.

Lemma track_items_confirmation_raises_witness :
  let b' := (track_items (refusing_world six_listings) 1 "X" 7 282 EmptyString
               (init None 1)).1 in
  seen_listings b' = ∅ /\
  notifications "L1" (check_listings (world_of six_listings) b').2 = 1%nat.
Proof.
  cbv zeta.
  destruct (track_items_confirmation_raises (refusing_world six_listings) 1 "X" 7 282
              EmptyString (init None 1) (default_params 7 282)
              (TransportError "403 Forbidden")) as (_ & Hseen & _).
  - reflexivity.
  - reflexivity.
  - split; [exact Hseen | vm_compute; reflexivity].
Defined.

(** ** The diagnostic command *)

(** X12. [test] is a diagnostic: it never changes the bot, so a listing
    it shows is still new to the next cycle.  A sort option outside the
    eight is rejected with the error text and nothing else happens, and
    a paint index of 0 is taken as no paint index at all. *)
Theorem test_fetch_diagnostic w def_index paint_index limit sort_by b :
  (test_fetch w def_index paint_index limit sort_by b).1 = b /\
  (sort_by ∉ valid_options ->
   (test_fetch w def_index paint_index limit sort_by b).2
   = [CtxSend (Some (invalid_sort_text sort_by)) None]) /\
  test_fetch w def_index (Some 0) limit sort_by b
  = test_fetch w def_index None limit sort_by b.
Proof.
  split_and!; [apply test_fetch_state | | done].
  intros Hbad. apply SortOption_lookup_None in Hbad. unfold test_fetch. by rewrite Hbad.
Qed.

Lemma test_fetch_diagnostic_witness :
  (test_fetch (world_of six_listings) 7 (Some 282) 5 "cheapest" tracking_X).2
  = [CtxSend (Some (invalid_sort_text "cheapest")) None].
Proof.
  apply (proj1 (proj2 (test_fetch_diagnostic (world_of six_listings) 7 (Some 282) 5
                         "cheapest" tracking_X))).
  vm_compute. set_solver.
Defined.

(** X13. The values that [sort_options] shows, one field each and in
    this order, are exactly the values that [track] and [test] accept
    as [sort_by]. *)
Theorem sort_options_lists_accepted_values :
  field_name <$> embed_fields sort_options_embed = valid_options ++ ["Example Usage"] /\
  (forall value, is_Some (SortOption_lookup value) <-> value ∈ valid_options) /\
  (forall value o, SortOption_lookup value = Some o -> SortOption_value o = value).
Proof.
  split_and!.
  - reflexivity.
  - intros value. pose proof (SortOption_lookup_None value) as H.
    destruct (SortOption_lookup value) as [o|].
    + split; [intros _|by eauto]. destruct (decide (value ∈ valid_options)); [done|].
      by apply H in n.
    + split; [by intros [? ?]|]. intros Hin. by destruct (proj1 H eq_refl).
  - intros value o H. unfold SortOption_lookup in H. apply find_some in H as [_ H].
    by apply String.eqb_eq.
Qed.

(** ** The loop over the extra parameters *)

Lemma parse_params_app tokens1 tokens2 : forall param_dict,
  parse_params (tokens1 ++ tokens2) param_dict
  = match parse_params tokens1 param_dict with
    | Params r => parse_params tokens2 r
    | InvalidSort value => InvalidSort value
    end.
Proof.
  induction tokens1 as [|param tokens1 IH]; intros pd; [done|].
  cbn [app parse_params].
  destruct (PyStr.split_once "=" param) as [[key value]|]; [|apply IH].
  destruct (String.eqb key "sort_by"); [|apply IH].
  destruct (SortOption_lookup value); [apply IH | done].
Qed.

Lemma split_once_join key value :
  PyStr.contains "=" key = false ->
  PyStr.split_once "=" (key +:+ "=" +:+ value) = Some (key, value).
Proof.
  induction key as [|c key IH]; simpl; [done|].
  destruct (Ascii.eqb c "="); [done|]. intros H. by rewrite (IH H).
Qed.

Lemma split_once_None param :
  PyStr.contains "=" param = false -> PyStr.split_once "=" param = None.
Proof.
  induction param as [|c param IH]; simpl; [done|].
  destruct (Ascii.eqb c "="); [done|]. intros H. by rewrite (IH H).
Qed.

(** X14. The extra parameters are read from left to right and the last
    write wins: a token [key=value] put after tokens that parse sets the
    key to the coerced value, whatever stood there before, be it an
    earlier token or one of the initial def_index, paint_index and
    limit.  A token without [=] is passed over. *)
Theorem parse_params_last_wins :
  (forall tokens param_dict r key value,
     PyStr.contains "=" key = false -> key <> "sort_by" ->
     parse_params tokens param_dict = Params r ->
     parse_params (tokens ++ [key +:+ "=" +:+ value]) param_dict
     = Params (Dict.set key (coerce value) r) /\
     Dict.get key (Dict.set key (coerce value) r) = Some (coerce value)) /\
  (forall before param after param_dict,
     PyStr.contains "=" param = false ->
     parse_params (before ++ param :: after) param_dict
     = parse_params (before ++ after) param_dict).
Proof.
  split.
  - intros tokens pd r key value Heq Hkey Hparse. split; [|apply Dict_get_set].
    rewrite parse_params_app, Hparse. cbn [parse_params].
    rewrite (split_once_join key value Heq).
    by destruct (String.eqb_spec key "sort_by").
  - intros before param after pd Hno. rewrite !parse_params_app.
    destruct (parse_params before pd); [|done]. cbn [parse_params].
    by rewrite (split_once_None param Hno).
Qed.

Lemma parse_params_last_wins_witness :
  parse_params (["max_float=0.15"; "limit=20"] ++ ["limit" +:+ "=" +:+ "50"])
               (default_params 7 282)
  = Params (Dict.set "limit" (coerce "50")
              [("def_index", PInt 7); ("paint_index", PInt 282); ("limit", PInt 20);
               ("sort_by", PStr "best_deal");
               ("max_float", PFloat (S754_finite false 5404319552844595 (-55)))]).
Proof.
  apply (proj1 parse_params_last_wins ["max_float=0.15"; "limit=20"] (default_params 7 282)).
  - reflexivity.
  - discriminate.
  - vm_compute. reflexivity.
Defined.

(** ** A configuration without new listings *)

(** X15. A configuration for which the fetch client answers nothing (a
    request that raises, a status other than 200, an empty [data]) has
    no effect on the rest of the cycle: the configurations after it are
    processed as if it were not in the store, with the same sends and
    the same seen set at the end. *)
Theorem check_configs_skips_failed w chan n name config rest b :
  (answered w n b (params config)).1 = [] ->
  (check_configs w chan n ((name, config) :: rest) b).1
  = (check_configs w chan (S n) rest b).1 /\
  sends (check_configs w chan n ((name, config) :: rest) b).2
  = sends (check_configs w chan (S n) rest b).2.
Proof.
  intros Hempty. cbn [check_configs].
  destruct (check_config_unfold w chan n name config b) as (closing & Hc & Hstep).
  unfold new_listings_of in Hstep. rewrite Hempty in Hstep.
  cbn in Hstep. rewrite set_seen_listings_same in Hstep. rewrite Hstep.
  destruct (check_configs w chan (S n) rest b) as [b2 ev2]. cbn [fst snd].
  split; [done|]. by rewrite !sends_app, answered_silent, Hc.
Qed.

Lemma check_configs_skips_failed_witness :
  let config := {| params := default_params 7 282; channel := 1 |} in
  length (sends (check_configs (failing_first six_listings) 1 0
                   [("X", config); ("Y", config)] (init None 1)).2) = 5%nat.
Proof.
  cbv zeta.
  rewrite (proj2 (check_configs_skips_failed (failing_first six_listings) 1 0 "X"
                    {| params := default_params 7 282; channel := 1 |}
                    [("Y", {| params := default_params 7 282; channel := 1 |})]
                    (init None 1) eq_refl)).
  vm_compute. reflexivity.
Defined.

(** ** The layout of a notification *)

Lemma divergence_text_name d :
  (divergence_text d).1 +:+ " Divergence" ∈ divergence_names.
Proof.
  unfold divergence_text, divergence_names.
  destruct (PyFloat.gt0 d); [set_solver|]. destruct (PyFloat.lt0 d); set_solver.
Qed.

Lemma reference_fields_names price_usd r ref :
  reference_fields price_usd r = Ok ref ->
  (length ref <= 3)%nat /\ Forall (fun f => field_name f ∈ reference_names) ref.
Proof.
  unfold reference_fields, bind.
  destruct r as [reference|]; [|intros [= <-]; split; [simpl; lia | apply Forall_nil_2]].
  destruct (dollars (predicted_price reference)) as [predicted|]; [|done].
  destruct (dollars (base_price reference)) as [base|]; [|done].
  assert (Hshown : forall shown,
    (if PyFloat.gt0 predicted then
       match pct_of price_usd predicted predicted with
       | Ok divergence_pct =>
           let '(divergence_emoji, text) := divergence_text divergence_pct in
           Ok [add_field "📈 Predicted" ("$" +:+ PyFloat.format_fixed 2 predicted) true;
               add_field (divergence_emoji +:+ " Divergence") text true]
       | Raise e => Raise e
       end
     else Ok []) = Ok shown ->
    (length shown <= 2)%nat /\ Forall (fun f => field_name f ∈ reference_names) shown).
  { intros shown.
    destruct (PyFloat.gt0 predicted);
      [|intros [= <-]; split; [simpl; lia | apply Forall_nil_2]].
    destruct (pct_of price_usd predicted predicted) as [d|]; [|done].
    pose proof (divergence_text_name d) as Hname.
    destruct (divergence_text d) as [marker text]. intros [= <-]. split; [simpl; lia|].
    repeat apply Forall_cons_2; [| |apply Forall_nil_2]; unfold reference_names; set_solver. }
  destruct (if PyFloat.gt0 predicted then _ else _) as [shown|]; [|done].
  destruct (Hshown shown eq_refl) as [Hlen Hall].
  destruct (PyFloat.gt0 base && PyFloat.ltb price_usd predicted).
  - destruct (pct_of predicted price_usd predicted) as [d|]; [|done].
    intros [= <-]. rewrite length_app. split; [simpl; lia|].
    apply Forall_app. split; [done|].
    apply Forall_cons_2; [|apply Forall_nil_2]. unfold reference_names, divergence_names.
    set_solver.
  - intros [= <-]. rewrite app_nil_r. split; [lia | done].
Qed.

Lemma sticker_fields_length it : (length (sticker_fields it) <= 1)%nat.
Proof. unfold sticker_fields. destruct (stickers it) as [[|s ss]|]; simpl; lia. Qed.

Lemma watcher_fields_length l watch :
  watcher_fields l = Ok watch -> (length watch <= 1)%nat.
Proof.
  unfold watcher_fields. destruct (watchers l) as [| |n]; [|done|]; intros [= <-];
    [simpl; lia|]. destruct (0 <? n); simpl; lia.
Qed.

Lemma description_fields_length l : (length (description_fields l) <= 1)%nat.
Proof.
  unfold description_fields. destruct (description l) as [d|]; [|simpl; lia].
  destruct (PyStr.truthy d); simpl; lia.
Qed.

(** X16. Every notification that is built starts with the same six
    fields in the same order (price, float, paint seed, condition, then
    the special flags or the rarity grade, then the seller) and has at
    most twelve fields in all; its title is the market name, and its
    link and its footer carry the id of the listing. *)
Theorem create_listing_embed_shape w l embed :
  create_listing_embed w l = Ok embed ->
  field_name <$> take 4 (embed_fields embed) = leading_names /\
  (exists special who rest,
     drop 4 (embed_fields embed) = special :: who :: rest /\
     (field_name special = "📊 Rarity" \/ field_name special = "✨ Special") /\
     who = add_field "👤 Seller" (str_of_optional (seller_name (seller l))) true) /\
  (6 <= length (embed_fields embed) <= 12)%nat /\
  embed_title embed = market_hash_name (item l) /\
  embed_url embed = Some (item_url (listing_id l)) /\
  embed_footer embed = Some ("CS Float • ID: " +:+ listing_id l).
Proof.
  intros He.
  destruct (create_listing_embed_layout w l embed He)
    as (price_usd & ref & watch & _ & _ & Href & Hwatch & -> & Htitle & Hurl & Hfooter & _).
  destruct (reference_fields_names _ _ _ Href) as [Hlen _].
  split_and!; [done | | | | done | done | done].
  - eexists _, _, _. split; [reflexivity|]. split; [apply special_field_name | done].
  - rewrite length_app. simpl. lia.
  - rewrite !length_app. simpl.
    pose proof (sticker_fields_length (item l)).
    pose proof (watcher_fields_length l watch Hwatch).
    pose proof (description_fields_length l). lia.
Qed.

Lemma create_listing_embed_shape_witness :
  exists embed,
    create_listing_embed (world_of []) (priced 9000) = Ok embed /\
    field_name <$> take 4 (embed_fields embed) = leading_names /\
    embed_footer embed = Some "CS Float • ID: P".
Proof.
  eexists. split; [vm_compute; reflexivity|].
  match goal with
  | |- context [embed_fields ?e] =>
      destruct (create_listing_embed_shape (world_of []) (priced 9000) e)
        as (H4 & _ & _ & _ & _ & Hf)
  end.
  - vm_compute. reflexivity.
  - split; [exact H4 | exact Hf].
Defined.

(** ** The optional fields *)

Lemma filter_names_none (names : list string) (name : string) (fs : list EmbedField) :
  Forall (fun f => field_name f ∈ names) fs ->
  name ∉ names ->
  List.filter (fun f => String.eqb (field_name f) name) fs = [].
Proof.
  intros Hall Hnot. induction Hall as [|f fs Hf _ IH]; simpl; [done|].
  destruct (String.eqb_spec (field_name f) name) as [Heq|]; [|done].
  by rewrite Heq in Hf.
Qed.

(** The fields under a name that is none of the fixed and reference
    names are those of the three optional parts. *)
Lemma fields_named_optional name w l embed :
  create_listing_embed w l = Ok embed ->
  name ∉ fixed_names -> name ∉ reference_names ->
  exists watch,
    watcher_fields l = Ok watch /\
    fields_named name embed
    = List.filter (fun f => String.eqb (field_name f) name)
        (sticker_fields (item l) ++ watch ++ description_fields l).
Proof.
  intros He Hfixed Href.
  destruct (create_listing_embed_layout w l embed He)
    as (price_usd & ref & watch & _ & _ & Hr & Hwatch & Hfields & _).
  destruct (reference_fields_names _ _ _ Hr) as [_ Hnames].
  exists watch. split; [done|].
  unfold fields_named. rewrite Hfields, !List.filter_app.
  rewrite (filter_names_none reference_names name ref Hnames Href).
  rewrite (filter_names_none fixed_names name); [done| |done].
  repeat apply Forall_cons_2; try apply Forall_nil_2; unfold fixed_names, leading_names;
    try (destruct (special_field_name (item l)) as [-> | ->]); set_solver.
Qed.

Lemma watcher_fields_spec l watch :
  watcher_fields l = Ok watch ->
  watchers l <> Null /\
  watch = match watchers l with
          | Present n => if 0 <? n then [add_field "👀 Watchers" (PyStr.of_Z n) true] else []
          | _ => []
          end.
Proof. unfold watcher_fields. destruct (watchers l); [|done|]; by intros [= <-]. Qed.

Lemma take_length n s : String.length (PyStr.take n s) = Nat.min n (String.length s).
Proof.
  revert s. induction n as [|n IH]; intros [|c s]; simpl; try done. by rewrite IH.
Qed.

Lemma append_length a b : String.length (a +:+ b) = (String.length a + String.length b)%nat.
Proof. induction a as [|c a IH]; simpl; [done|]. by rewrite IH. Qed.

Lemma take_all n s : (String.length s <= n)%nat -> PyStr.take n s = s.
Proof.
  revert s. induction n as [|n IH]; intros [|c s]; simpl; try done; [lia|].
  intros H. rewrite IH; [done | lia].
Qed.

Lemma append_empty_r s : s +:+ EmptyString = s.
Proof.
  induction s as [|c s IH]; [done|].
  change (String c (s +:+ EmptyString) = String c s). by rewrite IH.
Qed.

(** X17. The optional fields of a notification.  The note is there
    exactly when the description is not empty; a description of at most
    100 characters is shown whole and a longer one is cut to its first
    100 characters followed by "...", so that the note never exceeds 103
    characters.  The watchers field is there exactly when the count is
    above zero (a count that is [null] gives no embed at all), and the
    stickers field exactly when the listing has stickers.  None of them
    appears twice. *)
Theorem create_listing_embed_optional_fields w l embed :
  create_listing_embed w l = Ok embed ->
  fields_named "📝 Note" embed
  = match description l with
    | Some (String c d) => [add_field "📝 Note" (note_text (String c d)) false]
    | _ => []
    end /\
  (forall d, (String.length (note_text d) <= 103)%nat) /\
  (forall d, (String.length d <= 100)%nat -> note_text d = d) /\
  watchers l <> Null /\
  fields_named "👀 Watchers" embed
  = match watchers l with
    | Present n => if 0 <? n then [add_field "👀 Watchers" (PyStr.of_Z n) true] else []
    | _ => []
    end /\
  (length (fields_named "🏷️ Stickers" embed)
   = match stickers (item l) with Some (_ :: _) => 1 | _ => 0 end)%nat.
Proof.
  intros He.
  assert (Hopt : forall name, name ∉ fixed_names -> name ∉ reference_names ->
            fields_named name embed
            = List.filter (fun f => String.eqb (field_name f) name)
                (sticker_fields (item l) ++
                 match watchers l with
                 | Present n =>
                     if 0 <? n then [add_field "👀 Watchers" (PyStr.of_Z n) true] else []
                 | _ => []
                 end ++ description_fields l)).
  { intros name H1 H2. destruct (fields_named_optional name w l embed He H1 H2)
      as (watch & Hw & ->). by destruct (watcher_fields_spec l watch Hw) as [_ <-]. }
  assert (Hwatch : forall g, List.filter
            (fun f => String.eqb (field_name f) g)
            match watchers l with
            | Present n =>
                if 0 <? n then [add_field "👀 Watchers" (PyStr.of_Z n) true] else []
            | _ => []
            end
          = if String.eqb "👀 Watchers" g then
              match watchers l with
              | Present n =>
                  if 0 <? n then [add_field "👀 Watchers" (PyStr.of_Z n) true] else []
              | _ => []
              end
            else []).
  { intros g. destruct (watchers l) as [| |n]; [by destruct (String.eqb _ g)..|].
    destruct (0 <? n); [|by destruct (String.eqb _ g)].
    cbn [List.filter field_name add_field]. by destruct (String.eqb _ g). }
  split_and!.
  - rewrite Hopt;
      [|unfold fixed_names, leading_names; set_solver
       |unfold reference_names, divergence_names; set_solver].
    rewrite !List.filter_app, Hwatch.
    replace (List.filter _ (sticker_fields (item l))) with (@nil EmbedField)
      by (unfold sticker_fields; by destruct (stickers (item l)) as [[|s ss]|]).
    replace (String.eqb "👀 Watchers" "📝 Note") with false by reflexivity.
    unfold description_fields, note_text. destruct (description l) as [[|c d]|]; [done| |done].
    cbn [PyStr.truthy app List.filter field_name add_field]. rewrite String.eqb_refl.
    destruct (100 <? String.length (String c d))%nat eqn:Hlen; [done|].
    apply Nat.ltb_ge in Hlen. by rewrite take_all, append_empty_r.
  - intros d. unfold note_text. destruct (100 <? String.length d)%nat eqn:Hlen.
    + rewrite append_length, take_length.
      pose proof (Nat.le_min_l 100 (String.length d)).
      change (String.length "...") with 3%nat. lia.
    + apply Nat.ltb_ge in Hlen. lia.
  - intros d Hlen. unfold note_text. by rewrite (proj2 (Nat.ltb_ge _ _) Hlen).
  - destruct (create_listing_embed_layout w l embed He)
      as (? & ? & watch & _ & _ & _ & Hw & _).
    by destruct (watcher_fields_spec l watch Hw).
  - rewrite Hopt;
      [|unfold fixed_names, leading_names; set_solver
       |unfold reference_names, divergence_names; set_solver].
    rewrite !List.filter_app, Hwatch.
    replace (List.filter _ (sticker_fields (item l))) with (@nil EmbedField)
      by (unfold sticker_fields; by destruct (stickers (item l)) as [[|s ss]|]).
    replace (List.filter _ (description_fields l)) with (@nil EmbedField)
      by (unfold description_fields; destruct (description l) as [[|c d]|]; done).
    rewrite String.eqb_refl. by rewrite app_nil_r.
  - rewrite Hopt;
      [|unfold fixed_names, leading_names; set_solver
       |unfold reference_names, divergence_names; set_solver].
    rewrite !List.filter_app, Hwatch.
    replace (String.eqb "👀 Watchers" "🏷️ Stickers") with false by reflexivity.
    replace (List.filter _ (description_fields l)) with (@nil EmbedField)
      by (unfold description_fields; destruct (description l) as [[|c d]|]; done).
    unfold sticker_fields. by destruct (stickers (item l)) as [[|s ss]|].
Qed.

Lemma create_listing_embed_optional_fields_witness :
  exists embed,
    create_listing_embed (world_of []) (priced 9000) = Ok embed /\
    fields_named "📝 Note" embed = [] /\ fields_named "👀 Watchers" embed = [].
Proof.
  eexists. split; [vm_compute; reflexivity|].
  match goal with
  | |- context [fields_named _ ?e] =>
      destruct (create_listing_embed_optional_fields (world_of []) (priced 9000) e)
        as (Hnote & _ & _ & _ & Hwatch & _)
  end.
  - vm_compute. reflexivity.
  - split; [exact Hnote | exact Hwatch].
Defined.

(** ** The thumbnail *)

(** X18. The thumbnail of a notification is always an absolute address:
    an icon reference that begins with "http" is used as it is, any
    other non-empty reference is put behind the image address of the
    Steam CDN, and without an icon reference no thumbnail is set. *)
Theorem create_listing_embed_thumbnail w l embed :
  create_listing_embed w l = Ok embed ->
  (forall url, embed_thumbnail embed = Some url ->
     PyStr.startswith "http" url = true /\
     exists icon, icon_url (item l) = Some icon /\ icon <> EmptyString /\
       url = (if PyStr.startswith "http" icon then icon else cdn_base +:+ icon)) /\
  (embed_thumbnail embed = None <->
   icon_url (item l) = None \/ icon_url (item l) = Some EmptyString).
Proof.
  intros He.
  destruct (create_listing_embed_layout w l embed He)
    as (? & ? & ? & _ & _ & _ & _ & _ & _ & _ & _ & ->).
  unfold thumbnail. destruct (icon_url (item l)) as [[|c icon]|].
  - split; [done|]. split; [by right | done].
  - cbn [PyStr.truthy]. split.
    + intros url Hurl. destruct (PyStr.startswith "http" (String c icon)) eqn:Hhttp.
      * injection Hurl as <-. split; [done|]. exists (String c icon). by rewrite Hhttp.
      * assert (url = cdn_base +:+ String c icon) as ->
          by (destruct (PyStr.startswith "-9a81" (String c icon)); congruence).
        split; [reflexivity|]. exists (String c icon). by rewrite Hhttp.
    + split; [|by intros [|]].
      destruct (PyStr.startswith "http" (String c icon)); [done|].
      by destruct (PyStr.startswith "-9a81" (String c icon)).
  - split; [done|]. split; [by left | done].
Qed.

Lemma create_listing_embed_thumbnail_witness :
  embed_thumbnail
    (match create_listing_embed (world_of []) (priced 9000) with
     | Ok embed => embed
     | Raise _ => sort_options_embed
     end) = None.
Proof.
  apply (proj2 (create_listing_embed_thumbnail (world_of []) (priced 9000) _ eq_refl)).
  by left.
Defined.

(** ** When the builder raises *)

Lemma int_truediv_100_raises a e : PyFloat.int_truediv a 100 = Raise e -> e = OverflowError.
Proof.
  unfold PyFloat.int_truediv. destruct a; [done| |];
    destruct (PyFloat.is_inf _); congruence.
Qed.

Lemma dollars_raises v e :
  dollars v = Raise e ->
  e = OverflowError \/
  e = TypeError "unsupported operand type(s) for /: 'NoneType' and 'int'".
Proof.
  unfold dollars. destruct v as [| |cents].
  - intros H. left. by eapply int_truediv_100_raises.
  - intros [= <-]. by right.
  - intros H. left. by eapply int_truediv_100_raises.
Qed.

Lemma pct_of_raises a b d e :
  pct_of a b d = Raise e -> e = ZeroDivisionError /\ PyFloat.is_zero d = true.
Proof.
  unfold pct_of, PyFloat.truediv, bind. destruct (PyFloat.is_zero d); [|done].
  by intros [= <-].
Qed.

Lemma is_zero_not_gt0 x : PyFloat.is_zero x = true -> PyFloat.gt0 x = false.
Proof. by destruct x as [[|]| | |]. Qed.

Lemma reference_fields_raises price_usd r e :
  reference_fields price_usd (Some r) = Raise e ->
  e = OverflowError \/
  e = TypeError "unsupported operand type(s) for /: 'NoneType' and 'int'" \/
  (e = ZeroDivisionError /\
   exists predicted base,
     dollars (predicted_price r) = Ok predicted /\
     PyFloat.is_zero predicted = true /\
     dollars (base_price r) = Ok base /\
     PyFloat.gt0 base = true /\
     PyFloat.ltb price_usd predicted = true).
Proof.
  unfold reference_fields, bind.
  destruct (dollars (predicted_price r)) as [predicted|e1] eqn:Hpred;
    [|intros [= <-]; apply dollars_raises in Hpred; tauto].
  destruct (dollars (base_price r)) as [base|e2] eqn:Hbase;
    [|intros [= <-]; apply dollars_raises in Hbase; tauto].
  destruct (PyFloat.gt0 predicted) eqn:Hgt.
  - pose proof (gt0_not_zero _ Hgt) as Hnz.
    destruct (pct_of price_usd predicted predicted) as [d|e3] eqn:Hd;
      [|apply pct_of_raises in Hd as [_ ?]; congruence].
    destruct (divergence_text d) as [marker text].
    destruct (PyFloat.gt0 base && PyFloat.ltb price_usd predicted); [|done].
    destruct (pct_of predicted price_usd predicted) as [d'|e4] eqn:Hd'; [done|].
    apply pct_of_raises in Hd' as [_ ?]. congruence.
  - destruct (PyFloat.gt0 base && PyFloat.ltb price_usd predicted) eqn:Hcond; [|done].
    destruct (pct_of predicted price_usd predicted) as [d'|e4] eqn:Hd'; [done|].
    apply pct_of_raises in Hd' as [-> Hz]. intros [= <-]. right. right. split; [done|].
    apply andb_prop in Hcond as [Hb Hlt]. by exists predicted, base.
Qed.

(** X19. When the builder raises.  What it raises is what the reading
    of the timestamp raises, or OverflowError (the price, the predicted
    price or the base price is too large for a float), or TypeError (the
    predicted price, the base price or the watchers count is [null]), or
    ZeroDivisionError.  Once the timestamp is read, it raises
    ZeroDivisionError exactly in the branch of the discount field: the
    price converts, the reference has a base price above zero and a
    predicted price that is zero or missing, and the price is below it.
    The discount is computed without the test on the predicted price
    that guards the divergence; a listing with a negative price, a base
    price of 100.00 and no predicted price is such a case. *)
Theorem create_listing_embed_raises :
  (forall w l e,
     create_listing_embed w l = Raise e ->
     fromisoformat w (timestamp_text l) = Raise e \/
     e = OverflowError \/
     e = TypeError "unsupported operand type(s) for /: 'NoneType' and 'int'" \/
     e = TypeError "'>' not supported between instances of 'NoneType' and 'int'" \/
     e = ZeroDivisionError) /\
  (forall w l,
     fromisoformat w (timestamp_text l) = Ok tt ->
     (create_listing_embed w l = Raise ZeroDivisionError <->
      exists r predicted base price_usd,
        PyFloat.int_truediv (price l) 100 = Ok price_usd /\
        reference l = Some r /\
        dollars (predicted_price r) = Ok predicted /\
        PyFloat.is_zero predicted = true /\
        dollars (base_price r) = Ok base /\
        PyFloat.gt0 base = true /\
        PyFloat.ltb price_usd predicted = true)) /\
  create_listing_embed (world_of []) negative_priced = Raise ZeroDivisionError.
Proof.
  assert (Hwatch : forall l e, watcher_fields l = Raise e ->
            e = TypeError "'>' not supported between instances of 'NoneType' and 'int'").
  { intros l e. unfold watcher_fields. destruct (watchers l); [done| |done].
    by intros [= <-]. }
  split_and!.
  - intros w l e. unfold create_listing_embed, bind.
    destruct (fromisoformat w (timestamp_text l)) as [[]|e0]; [|intros [= <-]; by left].
    destruct (PyFloat.int_truediv (price l) 100) as [price_usd|e1] eqn:Hprice;
      [|intros [= <-]; right; left; by eapply int_truediv_100_raises].
    destruct (reference l) as [r|] eqn:Hr.
    + destruct (reference_fields price_usd (Some r)) as [ref|e2] eqn:Href.
      * destruct (watcher_fields l) as [watch|e3] eqn:Hw; [done|].
        intros [= <-]. apply Hwatch in Hw. tauto.
      * intros [= <-]. apply reference_fields_raises in Href as [->|[->|[-> _]]]; tauto.
    + cbn [reference_fields]. destruct (watcher_fields l) as [watch|e3] eqn:Hw; [done|].
      intros [= <-]. apply Hwatch in Hw. tauto.
  - intros w l Hts. unfold create_listing_embed, bind. rewrite Hts. split.
    + destruct (PyFloat.int_truediv (price l) 100) as [price_usd|e1] eqn:Hprice;
        [|intros [= ->]; by apply int_truediv_100_raises in Hprice].
      destruct (reference l) as [r|] eqn:Hr.
      * destruct (reference_fields price_usd (Some r)) as [ref|e2] eqn:Href.
        -- destruct (watcher_fields l) as [watch|e3] eqn:Hw; [done|].
           intros [= ->]. by apply Hwatch in Hw.
        -- intros [= ->].
           apply reference_fields_raises in Href
             as [?|[?|(_ & predicted & base & Hp & Hz & Hb & Hgt & Hlt)]]; [done|done|].
           by exists r, predicted, base, price_usd.
      * cbn [reference_fields]. destruct (watcher_fields l) as [watch|e3] eqn:Hw; [done|].
        intros [= ->]. by apply Hwatch in Hw.
    + intros (r & predicted & base & price_usd & Hprice & Hr & Hp & Hz & Hb & Hgt & Hlt).
      rewrite Hprice, Hr. unfold reference_fields, bind.
      rewrite Hp, Hb, (is_zero_not_gt0 _ Hz), Hgt, Hlt. cbn [andb].
      unfold pct_of, PyFloat.truediv, bind. by rewrite Hz.
  - vm_compute. reflexivity.
Qed.

Lemma create_listing_embed_raises_witness :
  exists r predicted base price_usd,
    PyFloat.int_truediv (price negative_priced) 100 = Ok price_usd /\
    reference negative_priced = Some r /\
    dollars (predicted_price r) = Ok predicted /\
    PyFloat.is_zero predicted = true /\
    dollars (base_price r) = Ok base /\
    PyFloat.gt0 base = true /\
    PyFloat.ltb price_usd predicted = true.
Proof.
  apply (proj1 (proj1 (proj2 create_listing_embed_raises) (world_of []) negative_priced
                  eq_refl)).
  vm_compute. reflexivity.
Defined.

(** ** Track, list, untrack *)

Lemma Dict_del_set {V : Type} (k : string) (v : V) d :
  k ∉ d.*1 -> Dict.del k (Dict.set k v d) = d.
Proof.
  induction d as [|[k0 v0] d IH]; intros Hnot.
  - cbn [Dict.set Dict.del]. by rewrite String.eqb_refl.
  - cbn [Dict.set]. rewrite fmap_cons in Hnot. cbn [fst] in Hnot.
    destruct (String.eqb_spec k0 k) as [->|Hne]; [set_solver|].
    cbn [Dict.del]. destruct (String.eqb_spec k0 k); [done|].
    rewrite IH; [done | set_solver].
Qed.

(** X20. [untrack] undoes [track] on the store: tracking a name that
    was not in the store and untracking it again leaves the store as it
    was before, entry for entry and in the same order.  The seen set
    keeps what the initial fetch of the track added. *)
Theorem track_then_untrack
  w w' chan name def_index paint_index params b param_dict :
  parse_params (track_tokens params) (default_params def_index paint_index)
  = Params param_dict ->
  name ∉ (tracking_configs b).*1 ->
  let b1 := (track_items w chan name def_index paint_index params b).1 in
  let b2 := (untrack_items w' name b1).1 in
  tracking_configs b2 = tracking_configs b /\
  seen_listings b2 = seen_listings b1 /\
  seen_listings b ⊆ seen_listings b1 /\
  (untrack_items w' name b1).2
  = [CtxSend (Some ("✅ Stopped tracking **" +:+ name +:+ "**")) None].
Proof.
  intros Hparse Hnot b1 b2.
  destruct (track_items_store w chan name _ _ _ b _ Hparse) as (Hconfigs & _).
  fold b1 in Hconfigs.
  assert (Hmem : Dict.mem name (tracking_configs b1) = true).
  { unfold Dict.mem. by rewrite Hconfigs, Dict_get_set. }
  subst b2. unfold untrack_items. rewrite Hmem. cbn [fst snd].
  split_and!; [|done| |done].
  - cbn [tracking_configs set_tracking_configs]. rewrite Hconfigs. by apply Dict_del_set.
  - apply track_items_dedup.
Qed.

Lemma track_then_untrack_witness :
  tracking_configs
    (untrack_items (world_of [])
       "Y" (track_items (world_of six_listings) 2 "Y" 5034 10033 EmptyString tracking_X).1).1
  = tracking_configs tracking_X.
Proof.
  apply (proj1 (track_then_untrack (world_of six_listings) (world_of []) 2 "Y" 5034 10033
                  EmptyString tracking_X (default_params 5034 10033) eq_refl
                  ltac:(vm_compute; set_solver))).
Defined.

Lemma tracking_embed_names configs :
  field_name <$> embed_fields (tracking_embed configs) = configs.*1.
Proof.
  unfold tracking_embed. cbn [embed_fields].
  induction configs as [|[k c] configs IH]; [done|].
  cbn [map]. rewrite !fmap_cons. by rewrite IH.
Qed.

(** X21. What [list_tracking] shows is the store: with an empty store it
    sends the text that nothing is tracked; otherwise it sends one embed
    with one field per configuration, named after it and in the order of
    the store.  After a [track] whose parameters parse, the field of the
    tracked name is the only one with that name and shows the parsed
    parameters, one [key: value] per line, between code fences. *)
Theorem list_tracking_shows_store w b :
  (tracking_configs b = [] ->
   list_tracking w b = (b, [CtxSend (Some "No items are currently being tracked.") None])) /\
  (tracking_configs b <> [] ->
   list_tracking w b = (b, [CtxSend None (Some (tracking_embed (tracking_configs b)))]) /\
   field_name <$> embed_fields (tracking_embed (tracking_configs b))
   = (tracking_configs b).*1) /\
  (forall w0 chan name def_index paint_index params param_dict,
     NoDup (tracking_configs b).*1 ->
     parse_params (track_tokens params) (default_params def_index paint_index)
     = Params param_dict ->
     fields_named name
       (tracking_embed
          (tracking_configs (track_items w0 chan name def_index paint_index params b).1))
     = [add_field name ("```" +:+ params_str param_dict +:+ "```") false]).
Proof.
  split_and!.
  - intros Hempty. unfold list_tracking. by rewrite Hempty.
  - intros Hne. split; [|apply tracking_embed_names].
    unfold list_tracking. by destruct (tracking_configs b).
  - intros w0 chan name def_index paint_index params param_dict Hnd Hparse.
    destruct (track_items_store w0 chan name _ _ _ b _ Hparse) as (-> & _).
    by rewrite tracking_embed_named, Dict_set_filter.
Qed.

Lemma list_tracking_shows_store_witness :
  list_tracking (world_of []) (init None 1)
  = (init None 1, [CtxSend (Some "No items are currently being tracked.") None]) /\
  field_name <$> embed_fields (tracking_embed (tracking_configs tracking_X)) = ["X"].
Proof.
  split.
  - apply (proj1 (list_tracking_shows_store (world_of []) (init None 1))). reflexivity.
  - rewrite (proj2 (proj1 (proj2 (list_tracking_shows_store (world_of []) tracking_X))
                      ltac:(vm_compute; discriminate))).
    reflexivity.
Defined.
